(** * Session registry and request routing of the combined MCP server

    A shallow embedding of [src/combined-server.ts] (class
    [CombinedMCPServer]): the four registry maps, the five routed handlers,
    and the three callbacks the class installs on its transports
    ([onsessioninitialized], [onclose], and the [close] listener of a
    push-stream response).

    Conventions of the embedding.
    - A [Record<string, V>] used as a dictionary is a [gmap string V]: the
      model holds the own properties of the four dictionaries and of their
      sub-dictionaries.  It stands for the program as long as no tenant key
      and no session identifier is the name of a property inherited from
      [Object.prototype] (see [plain]); on such a name the program reads or
      writes the shared prototype, which the model does not have.
      Statements that depend on this carry it as a hypothesis.
    - Objects created with [new] are numbered by an allocation counter
      ([next]); object identity is equality of these numbers.  The mutable
      [sessionId] field of a transport, and the [apiKey] captured by the
      closures installed on it, live in [heap].
    - A property access on [undefined] throws; handlers therefore return a
      [result], whose [TypeError] stands for that exception.
    - The protocol library is the environment.  What it does with a request
      that is forwarded to it is not modelled; the calls the handlers make
      into it are recorded as [Action]s, and the callbacks it makes back are
      [Event]s. *)

From stdpp Require Import gmap strings list fin_maps.
From Stdlib Require Import ZArith.

Local Open Scope string_scope.

(** ** Exceptions *)

Inductive result (A : Type) : Type :=
| Ok (a : A)
| TypeError.
Arguments Ok {A} a.
Arguments TypeError {A}.

Global Instance result_ret : MRet result := λ A a, Ok a.
Global Instance result_bind : MBind result := λ A B f m,
  match m with
  | Ok a => f a
  | TypeError => TypeError
  end.

(** ** Objects *)

Inductive Kind := Streamable | Sse.

Global Instance Kind_eq_dec : EqDecision Kind.
Proof. solve_decision. Defined.

(** A transport object: its class, the [apiKey] its callbacks closed over,
    and its [sessionId] field ([None] is [undefined]). *)
Record TransportObj := mkTransport {
  t_kind : Kind;
  t_apiKey : string;
  t_sessionId : option string
}.

Inductive Obj :=
| OTransport (o : TransportObj)
| OServer (apiKey : string).

(** ** The server's fields *)

Record State := mkState {
  mcpTransports : gmap string (gmap string nat);
  mcpServers : gmap string (gmap string nat);
  sseTransports : gmap string (gmap string nat);
  sseServers : gmap string nat;
  heap : gmap nat Obj;
  next : nat
}.

Definition init_state : State :=
  mkState ∅ ∅ ∅ ∅ ∅ 0.

Definition with_mcpTransports (m : gmap string (gmap string nat)) (st : State) : State :=
  mkState m (mcpServers st) (sseTransports st) (sseServers st) (heap st) (next st).

Definition with_mcpServers (m : gmap string (gmap string nat)) (st : State) : State :=
  mkState (mcpTransports st) m (sseTransports st) (sseServers st) (heap st) (next st).

Definition with_sseTransports (m : gmap string (gmap string nat)) (st : State) : State :=
  mkState (mcpTransports st) (mcpServers st) m (sseServers st) (heap st) (next st).

Definition with_sseServers (m : gmap string nat) (st : State) : State :=
  mkState (mcpTransports st) (mcpServers st) (sseTransports st) m (heap st) (next st).

Definition with_heap (h : gmap nat Obj) (st : State) : State :=
  mkState (mcpTransports st) (mcpServers st) (sseTransports st) (sseServers st) h (next st).

(** [new C(...)]: the object gets the next free number. *)
Definition alloc (o : Obj) (st : State) : nat * State :=
  (next st,
   mkState (mcpTransports st) (mcpServers st) (sseTransports st) (sseServers st)
           (<[next st := o]> (heap st)) (S (next st))).

(** [transport.sessionId] *)
Definition sessionId_of (st : State) (t : nat) : option string :=
  match heap st !! t with
  | Some (OTransport o) => t_sessionId o
  | _ => None
  end.

(** ** JavaScript values *)

(** A [string | undefined] used as a condition: [Some s] when it is truthy
    (defined and not the empty string). *)
Definition truthy (v : option string) : option string :=
  match v with
  | Some s => if decide (s = EmptyString) then None else Some s
  | None => None
  end.

(** A [string | undefined] used as a property key: [undefined] is converted
    to the string ["undefined"]. *)
Definition prop_key (v : option string) : string :=
  match v with
  | Some s => s
  | None => "undefined"
  end.

(** The names every plain object inherits from [Object.prototype]. *)
Definition inherited_names : list string :=
  ["constructor"; "__proto__"; "hasOwnProperty"; "isPrototypeOf";
   "propertyIsEnumerable"; "toLocaleString"; "toString"; "valueOf";
   "__defineGetter__"; "__defineSetter__"; "__lookupGetter__"; "__lookupSetter__"].

(** A key that names no inherited property: indexing a dictionary with it
    reads and writes own properties only. *)
Definition plain (s : string) : bool := bool_decide (s ∉ inherited_names).

(** The same for a [string | undefined] used under a truthiness test. *)
Definition plain_key (v : option string) : bool :=
  match truthy v with
  | Some s => plain s
  | None => true
  end.

(** ** Two-level dictionaries

    The three accesses below are those of the program for [plain] keys.
    For a key that names an inherited property the program reaches the
    shared prototype instead (it finds a function where the model finds
    nothing, and writes or deletes there); no such key is given a meaning
    here. *)

(** [m[k] ? m[k][sid] : undefined] *)
Definition get2 (m : gmap string (gmap string nat)) (k sid : string) : option nat :=
  match m !! k with
  | Some sub => sub !! sid
  | None => None
  end.

(** [m[k][sid] = v] *)
Definition set2 (m : gmap string (gmap string nat)) (k sid : string) (v : nat)
  : result (gmap string (gmap string nat)) :=
  match m !! k with
  | Some sub => Ok (<[k := <[sid := v]> sub]> m)
  | None => TypeError
  end.

(** [delete m[k][sid]] *)
Definition delete2 (m : gmap string (gmap string nat)) (k sid : string)
  : result (gmap string (gmap string nat)) :=
  match m !! k with
  | Some sub => Ok (<[k := delete sid sub]> m)
  | None => TypeError
  end.

(** The registry's [lookup(tenant, sessionId, kind)]: sessions are resolved
    through the transport maps. *)
Definition lookup (st : State) (k sid : string) (kind : Kind) : option nat :=
  match kind with
  | Streamable => get2 (mcpTransports st) k sid
  | Sse => get2 (sseTransports st) k sid
  end.

(** ** Callbacks installed on transports *)

(** [onsessioninitialized: (sid) => { ... }] of [handleMcpPost], closed over
    [apiKey] and [newTransport]. *)
Definition onsessioninitialized (apiKey : string) (newTransport : nat) (sid : string)
    (st : State) : result State :=
  let st1 :=
    match mcpTransports st !! apiKey with
    | None =>
        with_mcpServers (<[apiKey := ∅]> (mcpServers st))
          (with_mcpTransports (<[apiKey := ∅]> (mcpTransports st)) st)
    | Some _ => st
    end in
  m ← set2 (mcpTransports st1) apiKey sid newTransport;
  mret (with_mcpTransports m st1).

(** [newTransport.onclose = () => { ... }] of [handleMcpPost]. *)
Definition onclose (apiKey : string) (newTransport : nat) (st : State) : result State :=
  match truthy (sessionId_of st newTransport), mcpTransports st !! apiKey with
  | Some sid, Some _ =>
      m ← delete2 (mcpTransports st) apiKey sid;
      let st1 := with_mcpTransports m st in
      match mcpServers st1 !! apiKey with
      | Some _ =>
          m' ← delete2 (mcpServers st1) apiKey sid;
          mret (with_mcpServers m' st1)
      | None => mret st1
      end
  | _, _ => mret st
  end.

(** [res.on("close", () => { ... })] of [handleSseGet], closed over [apiKey]
    and [transport]. *)
Definition sse_onclose (apiKey : string) (transport : nat) (st : State) : result State :=
  match sseTransports st !! apiKey with
  | Some _ =>
      m ← delete2 (sseTransports st) apiKey (prop_key (sessionId_of st transport));
      mret (with_sseTransports m st)
  | None => mret st
  end.

(** ** Requests, replies and calls into the protocol library *)

Inductive Reply :=
| JsonRpcError (jsonrpc : string) (code : Z) (message : string) (id : option string)
| Text (s : string).

(** The structured error shape: a version marker, an error object with a
    numeric code and a message, and [id: null]. *)
Definition is_envelope (r : Reply) : bool :=
  match r with
  | JsonRpcError _ _ _ None => true
  | _ => false
  end.

Definition error_code (r : Reply) : option Z :=
  match r with
  | JsonRpcError _ code _ _ => Some code
  | Text _ => None
  end.

Section Router.

Context {Body : Type}.

(** [isInitializeRequest] of the protocol library. *)
Variable isInitializeRequest : Body → bool.

Record Request := mkRequest {
  params_apiKey : option string;         (* req.params.apiKey *)
  header_mcp_session_id : option string; (* req.headers['mcp-session-id'] *)
  query_sessionId : option string;       (* req.query.sessionId *)
  body : Body                            (* req.body *)
}.

Inductive Action :=
| Respond (status : nat) (r : Reply)
    (* res.status(status).json(..) / .send(..) *)
| HandleRequest (t : nat) (req : Request) (withBody : bool)
    (* transport.handleRequest(req, res[, req.body]) *)
| HandlePostMessage (t : nat) (req : Request)
    (* transport.handlePostMessage(req, res, req.body) *)
| ConnectTransport (server : nat) (kind : Kind) (t : nat).
    (* server.connectTransport(transport); [kind] is the transport's class *)

Definition handleMcpPost (req : Request) (st : State) : result (State * list Action) :=
  match truthy (params_apiKey req) with
  | None =>
      mret (st, [Respond 400
        (JsonRpcError "2.0" (-32000) "Bad Request: API key is required" None)])
  | Some apiKey =>
      let sessionId := truthy (header_mcp_session_id req) in
      let transport :=
        match sessionId with
        | Some sid => get2 (mcpTransports st) apiKey sid
        | None => None
        end in
      match sessionId, transport with
      | Some _, Some t => mret (st, [HandleRequest t req true])
      | _, _ =>
          if bool_decide (sessionId = None) && isInitializeRequest (body req) then
            let '(newTransport, st1) :=
              alloc (OTransport (mkTransport Streamable apiKey None)) st in
            let '(server, st2) := alloc (OServer apiKey) st1 in
            let st3 :=
              match mcpServers st2 !! apiKey with
              | None => with_mcpServers (<[apiKey := ∅]> (mcpServers st2)) st2
              | Some _ => st2
              end in
            let sessionId' := default "pending" (sessionId_of st3 newTransport) in
            m ← set2 (mcpServers st3) apiKey sessionId' server;
            mret (with_mcpServers m st3,
                  [ConnectTransport server Streamable newTransport;
                   HandleRequest newTransport req true])
          else
            mret (st, [Respond 400
              (JsonRpcError "2.0" (-32000)
                 "Bad Request: No valid session ID provided" None)])
      end
  end.

Definition handleMcpSession (req : Request) (st : State) : result (State * list Action) :=
  match truthy (params_apiKey req) with
  | None => mret (st, [Respond 400 (Text "API key is required")])
  | Some apiKey =>
      match truthy (header_mcp_session_id req) with
      | None => mret (st, [Respond 400 (Text "Invalid or missing session ID")])
      | Some sessionId =>
          match mcpTransports st !! apiKey with
          | None => mret (st, [Respond 400 (Text "Invalid or missing session ID")])
          | Some sub =>
              match sub !! sessionId with
              | None => mret (st, [Respond 400 (Text "Invalid or missing session ID")])
              | Some transport => mret (st, [HandleRequest transport req false])
              end
          end
      end
  end.

(** [uuid] is the identifier the constructor of the push-stream transport
    assigns to its [sessionId]. *)
Definition handleSseGet (req : Request) (uuid : string) (st : State)
  : result (State * list Action) :=
  match truthy (params_apiKey req) with
  | None => mret (st, [Respond 400 (Text "API key is required")])
  | Some apiKey =>
      let st1 :=
        match sseServers st !! apiKey with
        | None =>
            let '(server, st') := alloc (OServer apiKey) st in
            with_sseServers (<[apiKey := server]> (sseServers st')) st'
        | Some _ => st
        end in
      let st2 :=
        match sseTransports st1 !! apiKey with
        | None => with_sseTransports (<[apiKey := ∅]> (sseTransports st1)) st1
        | Some _ => st1
        end in
      let '(transport, st3) :=
        alloc (OTransport (mkTransport Sse apiKey (Some uuid))) st2 in
      m ← set2 (sseTransports st3) apiKey (prop_key (sessionId_of st3 transport)) transport;
      let st4 := with_sseTransports m st3 in
      match sseServers st4 !! apiKey with
      | Some server => mret (st4, [ConnectTransport server Sse transport])
      | None => TypeError
      end
  end.

Definition handleSseMessages (req : Request) (st : State) : result (State * list Action) :=
  match truthy (params_apiKey req) with
  | None => mret (st, [Respond 400 (Text "API key is required")])
  | Some apiKey =>
      let sessionId := prop_key (query_sessionId req) in
      match get2 (sseTransports st) apiKey sessionId with
      | Some transport => mret (st, [HandlePostMessage transport req])
      | None => mret (st, [Respond 400 (Text "No transport found for sessionId")])
      end
  end.

(** ** Events

    A handler is modelled up to its call into the protocol library
    ([handleRequest], [handlePostMessage], [connectTransport]); what the
    library does inside that call, including the callbacks it fires there
    (the completion callback while handling an initialize request, the close
    callback while handling a DELETE), are events of their own.

    The five routes of [setupRoutes] and the three callbacks.  The protocol
    library fires [EvSessionInitialized t sid] after it has stored the
    non-empty identifier [sid], produced by [sessionIdGenerator], in the
    [sessionId] field of a streamable transport [t] that had none; the two
    close events run the closure installed on the transport, with the
    [apiKey] that closure captured.  A firing that does not fit this
    description does nothing. *)

Inductive Event :=
| EvPostMcp (req : Request)
| EvGetMcp (req : Request)
| EvDeleteMcp (req : Request)
| EvGetSse (req : Request) (uuid : string)
| EvPostMessages (req : Request)
| EvSessionInitialized (t : nat) (sid : string)
| EvMcpClose (t : nat)
| EvSseClose (t : nat).

Definition fire (ev : Event) (st : State) : result (State * list Action) :=
  match ev with
  | EvPostMcp req => handleMcpPost req st
  | EvGetMcp req => handleMcpSession req st
  | EvDeleteMcp req => handleMcpSession req st
  | EvGetSse req uuid => handleSseGet req uuid st
  | EvPostMessages req => handleSseMessages req st
  | EvSessionInitialized t sid =>
      match heap st !! t with
      | Some (OTransport (mkTransport Streamable apiKey None)) =>
          if decide (sid = EmptyString) then mret (st, [])
          else
            let st1 :=
              with_heap (<[t := OTransport (mkTransport Streamable apiKey (Some sid))]> (heap st)) st in
            st' ← onsessioninitialized apiKey t sid st1;
            mret (st', [])
      | _ => mret (st, [])
      end
  | EvMcpClose t =>
      match heap st !! t with
      | Some (OTransport (mkTransport Streamable apiKey _)) =>
          st' ← onclose apiKey t st;
          mret (st', [])
      | _ => mret (st, [])
      end
  | EvSseClose t =>
      match heap st !! t with
      | Some (OTransport (mkTransport Sse apiKey _)) =>
          st' ← sse_onclose apiKey t st;
          mret (st', [])
      | _ => mret (st, [])
      end
  end.

(** Events in sequence; the calls into the protocol library accumulate. *)
Fixpoint exec (evs : list Event) (st : State) : result (State * list Action) :=
  match evs with
  | [] => mret (st, [])
  | ev :: evs' =>
      '(st1, out1) ← fire ev st;
      '(st2, out2) ← exec evs' st1;
      mret (st2, (out1 ++ out2)%list)
  end.

Definition reachable (st : State) : Prop :=
  ∃ evs out, exec evs init_state = Ok (st, out).

(** The keys an event brings are plain: the tenant key and the session
    identifier of a request, the identifier a transport was given. *)
Definition plain_event (ev : Event) : bool :=
  match ev with
  | EvPostMcp req | EvGetMcp req | EvDeleteMcp req =>
      plain_key (params_apiKey req) && plain_key (header_mcp_session_id req)
  | EvGetSse req uuid => plain_key (params_apiKey req) && plain uuid
  | EvPostMessages req =>
      plain_key (params_apiKey req) && plain (prop_key (query_sessionId req))
  | EvSessionInitialized _ sid => plain sid
  | EvMcpClose _ | EvSseClose _ => true
  end.

(** Reachable through events with plain keys only. *)
Definition plain_reachable (st : State) : Prop :=
  ∃ evs out, forallb plain_event evs = true ∧ exec evs init_state = Ok (st, out).

(** The number of entries of the four registry maps together. *)
Definition entry_count (st : State) : nat :=
  (map_fold (λ _ sub n, size sub + n) 0 (mcpTransports st) +
   map_fold (λ _ sub n, size sub + n) 0 (mcpServers st) +
   map_fold (λ _ sub n, size sub + n) 0 (sseTransports st) +
   size (sseServers st))%nat.

(** The request of an event that is an HTTP request. *)
Definition http_request (ev : Event) : option Request :=
  match ev with
  | EvPostMcp req | EvGetMcp req | EvDeleteMcp req
  | EvGetSse req _ | EvPostMessages req => Some req
  | _ => None
  end.

Definition is_rejection (a : Action) : bool :=
  match a with
  | Respond 400 _ => true
  | _ => false
  end.

(** The admission test of [handleMcpPost]:
    [!sessionId && isInitializeRequest(req.body)]. *)
Definition admissible (req : Request) : Prop :=
  truthy (header_mcp_session_id req) = None ∧ isInitializeRequest (body req) = true.

(** A run created a session: it connected a handler to a transport, and
    both objects did not exist before the run. *)
Definition session_created (st : State) (r : result (State * list Action)) : Prop :=
  ∃ st' out s kind t o a,
    r = Ok (st', out) ∧ ConnectTransport s kind t ∈ out ∧
    heap st !! t = None ∧ heap st' !! t = Some (OTransport o) ∧
    heap st !! s = None ∧ heap st' !! s = Some (OServer a).



End Router.

Arguments Request : clear implicits.
Arguments Action : clear implicits.
Arguments Event : clear implicits.

(** ** Well-formed states

    Objects are numbered below the allocation counter, and every entry of a
    transport map points to a transport of that map's class whose closures
    captured the entry's tenant key and whose [sessionId] field is the
    entry's key. *)

Record wf (st : State) : Prop := mk_wf {
  wf_heap : ∀ i o, heap st !! i = Some o → (i < next st)%nat;
  wf_mcp : ∀ k sid t, get2 (mcpTransports st) k sid = Some t →
    sid ≠ EmptyString ∧
    heap st !! t = Some (OTransport (mkTransport Streamable k (Some sid)));
  wf_sse : ∀ k sid t, get2 (sseTransports st) k sid = Some t →
    heap st !! t = Some (OTransport (mkTransport Sse k (Some sid)))
}.

(** The two bodies [handleMcpPost] sends with [res.status(400).json]. *)
Definition missing_key_envelope : Reply :=
  JsonRpcError "2.0" (-32000) "Bad Request: API key is required" None.

Definition no_session_envelope : Reply :=
  JsonRpcError "2.0" (-32000) "Bad Request: No valid session ID provided" None.

(** ** The scope of an event, and answers *)

Section Scope.

Context {Body : Type}.

(** The tenant an event belongs to: the key in the path of a request, the
    [apiKey] captured by the closure of a callback. *)
Definition event_tenant (st : State) (ev : Event Body) : option string :=
  match ev with
  | EvPostMcp req | EvGetMcp req | EvDeleteMcp req
  | EvGetSse req _ | EvPostMessages req => truthy (params_apiKey req)
  | EvSessionInitialized t _ | EvMcpClose t | EvSseClose t =>
      match heap st !! t with
      | Some (OTransport o) => Some (t_apiKey o)
      | _ => None
      end
  end.

(** The transport kind an event belongs to: [/mcp] routes and the callbacks
    of [handleMcpPost] on one side, [/sse], [/messages] and the [close]
    listener of [handleSseGet] on the other. *)
Definition event_kind (ev : Event Body) : Kind :=
  match ev with
  | EvPostMcp _ | EvGetMcp _ | EvDeleteMcp _
  | EvSessionInitialized _ _ | EvMcpClose _ => Streamable
  | EvGetSse _ _ | EvPostMessages _ | EvSseClose _ => Sse
  end.



End Scope.

(** ** Scenarios

    Concrete runs, with a body that is just the answer of
    [isInitializeRequest]. *)

Definition is_init (b : bool) : bool := b.

(** An initialize request without session header. *)
Definition init_req (k : string) : Request bool := mkRequest (Some k) None None true.

(** A request naming session [sid], in the header and in the query. *)
Definition session_req (k : string) (sid : option string) (b : bool) : Request bool :=
  mkRequest (Some k) sid sid b.

(** A request that reached a handler without tenant key. *)
Definition keyless_req : Request bool := mkRequest None None None false.

Definition st_of (r : result (State * list (Action bool))) : State :=
  match r with Ok (st, _) => st | TypeError => init_state end.

Definition out_of (r : result (State * list (Action bool))) : list (Action bool) :=
  match r with Ok (_, out) => out | TypeError => [] end.

(** Tenant "acme" after one completed handshake (transport 0, handler 1,
    identifier "s1") and one opened push stream (handler 2, transport 3,
    identifier "u1"). *)
Definition acme_events : list (Event bool) :=
  [EvPostMcp (init_req "acme"); EvSessionInitialized 0 "s1";
   EvGetSse (session_req "acme" None false) "u1"].

Definition acme_state : State := st_of (exec is_init acme_events init_state).

(** Two handshakes of the same tenant, completed one after the other. *)
Definition two_handshakes : list (Event bool) :=
  [EvPostMcp (init_req "acme"); EvSessionInitialized 0 "s1";
   EvPostMcp (init_req "acme"); EvSessionInitialized 2 "s2"].

(** Two push streams of the same tenant. *)
Definition two_streams : list (Event bool) :=
  [EvGetSse (session_req "acme" None false) "u1";
   EvGetSse (session_req "acme" None false) "u2"].

(** * Properties *)

Local Open Scope nat_scope.

(** ** Two-level dictionaries *)

Lemma get2_set2 (m m' : gmap string (gmap string nat)) k sid v k' sid' :
  set2 m k sid v = Ok m' →
  get2 m' k' sid' = if decide (k' = k ∧ sid' = sid) then Some v else get2 m k' sid'.
Proof.
  unfold set2, get2. destruct (m !! k) as [sub|] eqn:Hk; [|done].
  intros [= <-]. destruct (decide (k' = k)) as [->|Hne].
  - rewrite lookup_insert_eq, Hk. destruct (decide (sid' = sid)) as [->|Hs].
    + rewrite lookup_insert_eq. by rewrite decide_True.
    + rewrite lookup_insert_ne by done. rewrite decide_False; [done|by intros [? ?]].
  - rewrite lookup_insert_ne by done. rewrite decide_False; [done|by intros [? ?]].
Qed.

Lemma get2_delete2 (m m' : gmap string (gmap string nat)) k sid k' sid' :
  delete2 m k sid = Ok m' →
  get2 m' k' sid' = if decide (k' = k ∧ sid' = sid) then None else get2 m k' sid'.
Proof.
  unfold delete2, get2. destruct (m !! k) as [sub|] eqn:Hk; [|done].
  intros [= <-]. destruct (decide (k' = k)) as [->|Hne].
  - rewrite lookup_insert_eq, Hk. destruct (decide (sid' = sid)) as [->|Hs].
    + rewrite lookup_delete_eq. by rewrite decide_True.
    + rewrite lookup_delete_ne by done. rewrite decide_False; [done|by intros [? ?]].
  - rewrite lookup_insert_ne by done. rewrite decide_False; [done|by intros [? ?]].
Qed.

Lemma delete2_absent (m : gmap string (gmap string nat)) k sid :
  is_Some (m !! k) → get2 m k sid = None → delete2 m k sid = Ok m.
Proof.
  unfold delete2, get2. intros [sub Hk]. rewrite Hk. intros Hs.
  rewrite delete_id by done. by rewrite insert_id.
Qed.

Lemma delete2_is_Some (m m' : gmap string (gmap string nat)) k sid k' :
  delete2 m k sid = Ok m' → is_Some (m' !! k') ↔ is_Some (m !! k').
Proof.
  unfold delete2. destruct (m !! k) as [sub|] eqn:Hk; [|done]. intros [= <-].
  destruct (decide (k' = k)) as [->|Hne].
  - rewrite lookup_insert_eq, Hk. split; eauto.
  - by rewrite lookup_insert_ne.
Qed.

Lemma get2_insert_empty (m : gmap string (gmap string nat)) k k' sid' :
  m !! k = None → get2 (<[k := ∅]> m) k' sid' = get2 m k' sid'.
Proof.
  unfold get2. intros Hk. destruct (decide (k' = k)) as [->|Hne].
  - by rewrite lookup_insert_eq, Hk.
  - by rewrite lookup_insert_ne.
Qed.

Lemma truthy_Some v s : truthy v = Some s → v = Some s ∧ s ≠ EmptyString.
Proof.
  unfold truthy. destruct v as [s'|]; [|done].
  destruct (decide (s' = EmptyString)); [done|]. by intros [= ->].
Qed.

Lemma truthy_None v : truthy v = None ↔ v = None ∨ v = Some EmptyString.
Proof.
  unfold truthy. destruct v as [s'|]; [|naive_solver].
  destruct (decide (s' = EmptyString)) as [->|Hne].
  - split; [by right|done].
  - split; [done|]. intros [|[= ->]]; done.
Qed.

(** ** The callbacks, case by case *)

Lemma onsessioninitialized_lookup apiKey t sid st :
  ∃ st', onsessioninitialized apiKey t sid st = Ok st' ∧
    sseTransports st' = sseTransports st ∧ sseServers st' = sseServers st ∧
    heap st' = heap st ∧ next st' = next st ∧
    ∀ k' sid', get2 (mcpTransports st') k' sid' =
      if decide (k' = apiKey ∧ sid' = sid) then Some t
      else get2 (mcpTransports st) k' sid'.
Proof.
  unfold onsessioninitialized.
  destruct (mcpTransports st !! apiKey) as [sub|] eqn:Hk.
  - destruct (set2 (mcpTransports st) apiKey sid t) as [m|] eqn:Hset.
    + eexists. split; [done|]. repeat split; try done.
      intros k' sid'. simpl. by apply get2_set2.
    + unfold set2 in Hset. by rewrite Hk in Hset.
  - simpl. unfold set2 at 1. rewrite lookup_insert_eq. simpl.
    eexists. split; [done|]. repeat split; try done.
    intros k' sid'. simpl.
    erewrite get2_set2; [|unfold set2; by rewrite lookup_insert_eq].
    case_decide; [done|]. by apply get2_insert_empty.
Qed.

Lemma onclose_unset apiKey t st :
  truthy (sessionId_of st t) = None ∨ mcpTransports st !! apiKey = None →
  onclose apiKey t st = Ok st.
Proof.
  unfold onclose. intros [-> | ->]; [done|].
  by destruct (truthy (sessionId_of st t)).
Qed.

Lemma onclose_lookup apiKey t sid st :
  truthy (sessionId_of st t) = Some sid →
  is_Some (mcpTransports st !! apiKey) →
  ∃ st', onclose apiKey t st = Ok st' ∧
    sseTransports st' = sseTransports st ∧ sseServers st' = sseServers st ∧
    heap st' = heap st ∧ next st' = next st ∧
    is_Some (mcpTransports st' !! apiKey) ∧
    (∀ k' sid', get2 (mcpTransports st') k' sid' =
      if decide (k' = apiKey ∧ sid' = sid) then None
      else get2 (mcpTransports st) k' sid') ∧
    (∀ k' sid', get2 (mcpServers st') k' sid' =
      if decide (k' = apiKey ∧ sid' = sid) then None
      else get2 (mcpServers st) k' sid').
Proof.
  unfold onclose. intros -> [sub Hk]. rewrite Hk.
  destruct (delete2 (mcpTransports st) apiKey sid) as [m|] eqn:Hdel;
    [|unfold delete2 in Hdel; by rewrite Hk in Hdel].
  simpl.
  assert (is_Some (m !! apiKey)) as Hm by (eapply delete2_is_Some; eauto).
  destruct (mcpServers st !! apiKey) as [sub'|] eqn:Hs.
  - destruct (delete2 (mcpServers st) apiKey sid) as [m'|] eqn:Hdel';
      [|unfold delete2 in Hdel'; by rewrite Hs in Hdel'].
    simpl. eexists. split; [done|]. repeat split; try done; simpl.
    + intros. by apply get2_delete2.
    + intros. by apply get2_delete2.
  - eexists. split; [done|]. repeat split; try done; simpl.
    + intros. by apply get2_delete2.
    + intros k' sid'. case_decide as Hd; [|done].
      destruct Hd as [-> ->]. unfold get2. by rewrite Hs.
Qed.

Lemma sse_onclose_lookup apiKey t st :
  ∃ st', sse_onclose apiKey t st = Ok st' ∧
    mcpTransports st' = mcpTransports st ∧ mcpServers st' = mcpServers st ∧
    sseServers st' = sseServers st ∧ heap st' = heap st ∧ next st' = next st ∧
    ∀ k' sid', get2 (sseTransports st') k' sid' =
      if decide (k' = apiKey ∧ sid' = prop_key (sessionId_of st t)) then None
      else get2 (sseTransports st) k' sid'.
Proof.
  unfold sse_onclose. destruct (sseTransports st !! apiKey) as [sub|] eqn:Hk.
  - destruct (delete2 _ _ _) as [m|] eqn:Hdel;
      [|unfold delete2 in Hdel; by rewrite Hk in Hdel].
    simpl. eexists. split; [done|]. repeat split; try done; simpl.
    intros. by apply get2_delete2.
  - eexists. split; [done|]. repeat split; try done.
    intros k' sid'. case_decide as Hd; [|done].
    destruct Hd as [-> ->]. unfold get2. by rewrite Hk.
Qed.

Section Properties.

Context {Body : Type}.
Variable isInitializeRequest : Body → bool.


(** ** The handlers, case by case *)

Lemma handleMcpPost_no_key (req : Request Body) st :
  truthy (params_apiKey req) = None →
  handleMcpPost isInitializeRequest req st = Ok (st, [Respond 400 missing_key_envelope]).
Proof. unfold handleMcpPost. by intros ->. Qed.

Lemma handleMcpPost_forward (req : Request Body) st k sid t :
  truthy (params_apiKey req) = Some k →
  truthy (header_mcp_session_id req) = Some sid →
  get2 (mcpTransports st) k sid = Some t →
  handleMcpPost isInitializeRequest req st = Ok (st, [HandleRequest t req true]).
Proof. unfold handleMcpPost. by intros -> -> ->. Qed.

Lemma handleMcpPost_reject (req : Request Body) st k :
  truthy (params_apiKey req) = Some k →
  (∀ sid, truthy (header_mcp_session_id req) = Some sid →
          get2 (mcpTransports st) k sid = None) →
  ¬ (truthy (header_mcp_session_id req) = None ∧ isInitializeRequest (body req) = true) →
  handleMcpPost isInitializeRequest req st = Ok (st, [Respond 400 no_session_envelope]).
Proof.
  unfold handleMcpPost. intros -> Hnone Hnot.
  destruct (truthy (header_mcp_session_id req)) as [sid|] eqn:Hsid.
  - rewrite (Hnone sid eq_refl). done.
  - destruct (isInitializeRequest (body req)); [|done].
    by destruct Hnot.
Qed.

Lemma handleMcpPost_admit (req : Request Body) st k :
  truthy (params_apiKey req) = Some k →
  truthy (header_mcp_session_id req) = None →
  isInitializeRequest (body req) = true →
  ∃ st', handleMcpPost isInitializeRequest req st =
      Ok (st', [ConnectTransport (S (next st)) Streamable (next st);
                HandleRequest (next st) req true]) ∧
    mcpTransports st' = mcpTransports st ∧
    sseTransports st' = sseTransports st ∧
    sseServers st' = sseServers st ∧
    heap st' = <[S (next st) := OServer k]>
                 (<[next st := OTransport (mkTransport Streamable k None)]> (heap st)) ∧
    next st' = S (S (next st)) ∧
    ∀ k' sid', get2 (mcpServers st') k' sid' =
      if decide (k' = k ∧ sid' = "pending") then Some (S (next st))
      else get2 (mcpServers st) k' sid'.
Proof.
  unfold handleMcpPost. intros -> -> ->. simpl.
  assert (∀ st3, heap st3 = <[S (next st) := OServer k]>
            (<[next st := OTransport (mkTransport Streamable k None)]> (heap st)) →
          sessionId_of st3 (next st) = None) as Hsid.
  { intros st3 Hh. unfold sessionId_of. rewrite Hh.
    rewrite lookup_insert_ne by lia. by rewrite lookup_insert_eq. }
  destruct (mcpServers st !! k) as [sub|] eqn:Hk.
  - rewrite Hsid by done. simpl.
    destruct (set2 _ _ _ _) as [m|] eqn:Hset;
      [|unfold set2 in Hset; simpl in Hset; by rewrite Hk in Hset].
    simpl. eexists. split; [done|]. repeat split; try done.
    intros k' sid'. simpl. by apply get2_set2.
  - rewrite Hsid by done. simpl.
    unfold set2 at 1. simpl. rewrite lookup_insert_eq. simpl.
    eexists. split; [done|]. repeat split; try done.
    intros k' sid'. simpl.
    erewrite get2_set2; [|unfold set2; by rewrite lookup_insert_eq].
    case_decide; [done|]. by apply get2_insert_empty.
Qed.

Lemma handleMcpSession_forward (req : Request Body) st k sid t :
  truthy (params_apiKey req) = Some k →
  truthy (header_mcp_session_id req) = Some sid →
  get2 (mcpTransports st) k sid = Some t →
  handleMcpSession req st = Ok (st, [HandleRequest t req false]).
Proof.
  unfold handleMcpSession, get2. intros -> ->.
  destruct (mcpTransports st !! k); [|done]. by intros ->.
Qed.

Lemma handleMcpSession_reject (req : Request Body) st k :
  truthy (params_apiKey req) = Some k →
  (∀ sid, truthy (header_mcp_session_id req) = Some sid →
          get2 (mcpTransports st) k sid = None) →
  handleMcpSession req st = Ok (st, [Respond 400 (Text "Invalid or missing session ID")]).
Proof.
  unfold handleMcpSession, get2. intros -> Hnone.
  destruct (truthy (header_mcp_session_id req)) as [sid|]; [|done].
  specialize (Hnone sid eq_refl).
  destruct (mcpTransports st !! k); [|done]. by rewrite Hnone.
Qed.

Lemma handleSseGet_open (req : Request Body) uuid st k :
  truthy (params_apiKey req) = Some k →
  ∃ st' s t, handleSseGet req uuid st = Ok (st', [ConnectTransport s Sse t]) ∧
    mcpTransports st' = mcpTransports st ∧
    mcpServers st' = mcpServers st ∧
    sseServers st' = <[k := s]> (sseServers st) ∧
    heap st' !! t = Some (OTransport (mkTransport Sse k (Some uuid))) ∧
    (∀ i, i < next st ∨ next st' ≤ i → heap st' !! i = heap st !! i) ∧
    next st ≤ t < next st' ∧
    (sseServers st !! k = Some s ∨ sseServers st !! k = None ∧ s = next st) ∧
    ∀ k' sid', get2 (sseTransports st') k' sid' =
      if decide (k' = k ∧ sid' = uuid) then Some t
      else get2 (sseTransports st) k' sid'.
Proof.
  unfold handleSseGet. intros ->.
  destruct (sseServers st !! k) as [s|] eqn:Hs; simpl.
  - set (st2 := match sseTransports st !! k with
                | None => with_sseTransports (<[k := ∅]> (sseTransports st)) st
                | Some _ => st end).
    assert (mcpTransports st2 = mcpTransports st ∧ mcpServers st2 = mcpServers st ∧
            sseServers st2 = sseServers st ∧ heap st2 = heap st ∧ next st2 = next st ∧
            is_Some (sseTransports st2 !! k) ∧
            ∀ k' sid', get2 (sseTransports st2) k' sid' = get2 (sseTransports st) k' sid')
      as (E1 & E2 & E3 & E4 & E5 & [sub Hsub] & E6).
    { subst st2. destruct (sseTransports st !! k) eqn:Hk; simpl.
      - repeat split; eauto.
      - rewrite lookup_insert_eq. repeat split; eauto.
        intros. by apply get2_insert_empty. }
    clearbody st2. unfold sessionId_of. simpl. rewrite lookup_insert_eq. simpl.
    unfold set2 at 1. simpl. rewrite Hsub. simpl. rewrite E3, Hs.
    eexists _, s, (next st2). split; [reflexivity|]. simpl.
    rewrite ?E1, ?E2, ?E3, ?E4, ?E5.
    split; [done|]. split; [done|]. split; [by rewrite insert_id|].
    split; [by rewrite lookup_insert_eq|].
    split; [intros i Hi; rewrite lookup_insert_ne by lia; done|].
    split; [lia|]. split; [by left|].
    intros k' sid'. erewrite get2_set2; [|unfold set2; by rewrite Hsub].
    case_decide; [done|]. apply E6.
  - set (st1 := with_sseServers _ _).
    set (st2 := match sseTransports st !! k with
                | None => with_sseTransports (<[k := ∅]> (sseTransports st)) st1
                | Some _ => st1 end).
    assert (mcpTransports st2 = mcpTransports st ∧ mcpServers st2 = mcpServers st ∧
            sseServers st2 = <[k := next st]> (sseServers st) ∧
            heap st2 = <[next st := OServer k]> (heap st) ∧ next st2 = S (next st) ∧
            is_Some (sseTransports st2 !! k) ∧
            ∀ k' sid', get2 (sseTransports st2) k' sid' = get2 (sseTransports st) k' sid')
      as (E1 & E2 & E3 & E4 & E5 & [sub Hsub] & E6).
    { subst st2 st1. simpl. destruct (sseTransports st !! k) eqn:Hk; simpl.
      - repeat split; eauto.
      - rewrite lookup_insert_eq. repeat split; eauto.
        intros. by apply get2_insert_empty. }
    clearbody st2. clear st1. unfold sessionId_of. simpl. rewrite lookup_insert_eq. simpl.
    unfold set2 at 1. simpl. rewrite Hsub. simpl. rewrite E3, lookup_insert_eq.
    eexists _, (next st), (next st2). split; [reflexivity|]. simpl.
    rewrite ?E1, ?E2, ?E3, ?E4, ?E5.
    split; [done|]. split; [done|]. split; [done|].
    split; [by rewrite lookup_insert_eq|].
    split; [intros i Hi; rewrite !lookup_insert_ne by lia; done|].
    split; [lia|]. split; [by right|].
    intros k' sid'. erewrite get2_set2; [|unfold set2; by rewrite Hsub].
    case_decide; [done|]. apply E6.
Qed.

Lemma handleSseMessages_forward (req : Request Body) st k t :
  truthy (params_apiKey req) = Some k →
  get2 (sseTransports st) k (prop_key (query_sessionId req)) = Some t →
  handleSseMessages req st = Ok (st, [HandlePostMessage t req]).
Proof. unfold handleSseMessages. by intros -> ->. Qed.

Lemma handleSseMessages_reject (req : Request Body) st k :
  truthy (params_apiKey req) = Some k →
  get2 (sseTransports st) k (prop_key (query_sessionId req)) = None →
  handleSseMessages req st = Ok (st, [Respond 400 (Text "No transport found for sessionId")]).
Proof. unfold handleSseMessages. by intros -> ->. Qed.

(** ** No handler or callback throws *)

Lemma handleMcpPost_cases (req : Request Body) st :
  (∃ a, handleMcpPost isInitializeRequest req st = Ok (st, [a]) ∧
        ∀ s K t, a ≠ ConnectTransport s K t) ∨
  (∃ k, truthy (params_apiKey req) = Some k ∧
        truthy (header_mcp_session_id req) = None ∧
        isInitializeRequest (body req) = true).
Proof.
  destruct (truthy (params_apiKey req)) as [k|] eqn:Hk.
  - destruct (truthy (header_mcp_session_id req)) as [sid|] eqn:Hsid.
    + left. destruct (get2 (mcpTransports st) k sid) as [t|] eqn:Ht.
      * eexists. split; [by eapply handleMcpPost_forward|done].
      * exists (Respond 400 no_session_envelope). split; [|done].
        apply (handleMcpPost_reject req st k Hk).
        -- intros sid' Hs'. rewrite Hsid in Hs'. by injection Hs' as <-.
        -- rewrite Hsid. by intros [? _].
    + destruct (isInitializeRequest (body req)) eqn:Hi.
      * right. by exists k.
      * left. exists (Respond 400 no_session_envelope). split; [|done].
        apply (handleMcpPost_reject req st k Hk).
        -- intros sid' Hs'. by rewrite Hsid in Hs'.
        -- rewrite Hi. by intros [_ ?].
  - left. eexists. split; [by apply handleMcpPost_no_key|done].
Qed.

Lemma handleMcpSession_cases (req : Request Body) st :
  ∃ a, handleMcpSession req st = Ok (st, [a]) ∧ ∀ s K t, a ≠ ConnectTransport s K t.
Proof.
  unfold handleMcpSession.
  destruct (truthy (params_apiKey req)); [|by eexists].
  destruct (truthy (header_mcp_session_id req)); [|by eexists].
  destruct (mcpTransports st !! _) as [sub|]; [|by eexists].
  destruct (sub !! _); by eexists.
Qed.

Lemma handleSseMessages_cases (req : Request Body) st :
  ∃ a, handleSseMessages req st = Ok (st, [a]) ∧ ∀ s K t, a ≠ ConnectTransport s K t.
Proof.
  unfold handleSseMessages.
  destruct (truthy (params_apiKey req)); [|by eexists].
  destruct (get2 _ _ _); by eexists.
Qed.

Lemma handleSseGet_no_key (req : Request Body) uuid st :
  truthy (params_apiKey req) = None →
  handleSseGet req uuid st = Ok (st, [Respond 400 (Text "API key is required")]).
Proof. unfold handleSseGet. by intros ->. Qed.

Lemma onclose_shrinks apiKey t st :
  ∃ st', onclose apiKey t st = Ok st' ∧
    sseTransports st' = sseTransports st ∧ sseServers st' = sseServers st ∧
    heap st' = heap st ∧ next st' = next st ∧
    ∀ k' sid' x, get2 (mcpTransports st') k' sid' = Some x →
                 get2 (mcpTransports st) k' sid' = Some x.
Proof.
  destruct (truthy (sessionId_of st t)) as [sid|] eqn:Hsid.
  - destruct (mcpTransports st !! apiKey) as [sub|] eqn:Hk.
    + destruct (onclose_lookup apiKey t sid st) as (st' & -> & ? & ? & ? & ? & _ & Hm & _);
        [done|by eexists|].
      exists st'. repeat split; try done.
      intros k' sid' x. rewrite Hm. by case_decide.
    + rewrite onclose_unset by (by right). by exists st.
  - rewrite onclose_unset by (by left). by exists st.
Qed.

Theorem fire_Ok (ev : Event Body) st :
  ∃ st' out, fire isInitializeRequest ev st = Ok (st', out).
Proof.
  destruct ev as [req|req|req|req uuid|req|t sid|t|t]; simpl.
  - destruct (handleMcpPost_cases req st) as [(a & -> & _)|(k & Hk & Hs & Hi)]; [by eexists _, _|].
    destruct (handleMcpPost_admit req st k Hk Hs Hi) as (st' & -> & _). by eexists _, _.
  - destruct (handleMcpSession_cases req st) as (a & -> & _). by eexists _, _.
  - destruct (handleMcpSession_cases req st) as (a & -> & _). by eexists _, _.
  - destruct (truthy (params_apiKey req)) as [k|] eqn:Hk.
    + destruct (handleSseGet_open req uuid st k Hk) as (st' & s & t & -> & _). by eexists _, _.
    + rewrite handleSseGet_no_key by done. by eexists _, _.
  - destruct (handleSseMessages_cases req st) as (a & -> & _). by eexists _, _.
  - destruct (heap st !! t) as [[[[] k [sid'|]]|]|]; try by eexists _, _.
    destruct (decide (sid = EmptyString)); [by eexists _, _|].
    destruct (onsessioninitialized_lookup k t sid
      (with_heap (<[t := OTransport (mkTransport Streamable k (Some sid))]> (heap st)) st))
      as (st' & -> & _).
    by eexists _, _.
  - destruct (heap st !! t) as [[[[] k sid']|]|]; try by eexists _, _.
    destruct (onclose_shrinks k t st) as (st' & -> & _). by eexists _, _.
  - destruct (heap st !! t) as [[[[] k sid']|]|]; try by eexists _, _.
    destruct (sse_onclose_lookup k t st) as (st' & -> & _). by eexists _, _.
Qed.

(** ** Reachable states are well-formed *)

Lemma wf_init : wf init_state.
Proof. split; intros *; unfold get2; simpl; by rewrite lookup_empty. Qed.

Lemma handleMcpPost_wf (req : Request Body) st st' out :
  wf st → handleMcpPost isInitializeRequest req st = Ok (st', out) → wf st'.
Proof.
  intros [Hh Hm Hs] Hrun.
  destruct (handleMcpPost_cases req st) as [(a & Ha & _)|(k & Hk & Hsid & Hi)].
  { rewrite Ha in Hrun. by injection Hrun as <- _. }
  destruct (handleMcpPost_admit req st k Hk Hsid Hi)
    as (st2 & Hst2 & Emt & Est & Ess & Eh & En & _).
  rewrite Hst2 in Hrun. injection Hrun as <- _.
  assert (∀ i o, heap st !! i = Some o → heap st2 !! i = Some o) as Hkeep.
  { intros i o Hi'. specialize (Hh _ _ Hi'). rewrite Eh.
    rewrite !lookup_insert_ne by lia. done. }
  split.
  - intros i o. rewrite Eh, En.
    destruct (decide (i = S (next st))) as [->|]; [lia|].
    rewrite lookup_insert_ne by done.
    destruct (decide (i = next st)) as [->|]; [lia|].
    rewrite lookup_insert_ne by done. intros Hi'. specialize (Hh _ _ Hi'). lia.
  - intros k' sid t. rewrite Emt. intros Hg.
    destruct (Hm _ _ _ Hg) as [? ?]. split; [done|]. by apply Hkeep.
  - intros k' sid t. rewrite Est. intros Hg. apply Hkeep. by apply Hs.
Qed.

Lemma handleSseGet_wf (req : Request Body) uuid st st' out :
  wf st → handleSseGet req uuid st = Ok (st', out) → wf st'.
Proof.
  intros [Hh Hm Hs] Hrun.
  destruct (truthy (params_apiKey req)) as [k|] eqn:Hk;
    [|rewrite handleSseGet_no_key in Hrun by done; by injection Hrun as <- _].
  destruct (handleSseGet_open req uuid st k Hk)
    as (st2 & s & t & Hst2 & Emt & Ems & Ess & Ht & Hold & Hrange & _ & Hg).
  rewrite Hst2 in Hrun. injection Hrun as <- _.
  split.
  - intros i o Hi. destruct (decide (i < next st2)) as [|Hge]; [done|].
    rewrite Hold in Hi by lia. specialize (Hh _ _ Hi). lia.
  - intros k' sid t'. rewrite Emt. intros Hg'.
    destruct (Hm _ _ _ Hg') as [? Hobj]. split; [done|].
    rewrite Hold; [done|]. left. by eapply Hh.
  - intros k' sid t'. rewrite Hg. case_decide as Hd.
    + destruct Hd as [-> ->]. by intros [= <-].
    + intros Hg'. specialize (Hs _ _ _ Hg').
      rewrite Hold; [done|]. left. by eapply Hh.
Qed.

Lemma fire_wf (ev : Event Body) st st' out :
  wf st → fire isInitializeRequest ev st = Ok (st', out) → wf st'.
Proof.
  intros Hwf. destruct ev as [req|req|req|req uuid|req|t sid|t|t]; simpl.
  - by apply handleMcpPost_wf.
  - destruct (handleMcpSession_cases req st) as (a & -> & _). by intros [= <- _].
  - destruct (handleMcpSession_cases req st) as (a & -> & _). by intros [= <- _].
  - by apply handleSseGet_wf.
  - destruct (handleSseMessages_cases req st) as (a & -> & _). by intros [= <- _].
  - destruct (heap st !! t) as [[[[] k [sid'|]]|]|] eqn:Ht; try by intros [= <- _].
    destruct (decide (sid = EmptyString)) as [|Hne]; [by intros [= <- _]|].
    destruct (onsessioninitialized_lookup k t sid
      (with_heap (<[t := OTransport (mkTransport Streamable k (Some sid))]> (heap st)) st))
      as (st2 & -> & Est & Ess & Eh & En & Hg).
    simpl in *. intros [= <- _]. destruct Hwf as [Hh Hm Hs].
    split.
    + intros i o. rewrite Eh, En. destruct (decide (i = t)) as [->|].
      * intros _. by eapply Hh.
      * rewrite lookup_insert_ne by done. apply Hh.
    + intros k' sid' t'. rewrite Hg, Eh. case_decide as Hd.
      * destruct Hd as [-> ->]. intros [= <-]. by rewrite lookup_insert_eq.
      * intros Hg'. destruct (Hm _ _ _ Hg') as [? Hobj]. split; [done|].
        rewrite lookup_insert_ne; [done|]. intros ->. congruence.
    + intros k' sid' t'. rewrite Est, Eh. intros Hg'. specialize (Hs _ _ _ Hg').
      rewrite lookup_insert_ne; [done|]. intros ->. congruence.
  - destruct (heap st !! t) as [[[[] k sid']|]|] eqn:Ht; try by intros [= <- _].
    destruct (onclose_shrinks k t st) as (st2 & -> & Est & Ess & Eh & En & Hg).
    simpl. intros [= <- _]. destruct Hwf as [Hh Hm Hs].
    split.
    + intros i o. rewrite Eh, En. apply Hh.
    + intros k' sid t' Hg'. rewrite Eh. apply Hm. by apply Hg.
    + intros k' sid t'. rewrite Est, Eh. apply Hs.
  - destruct (heap st !! t) as [[[[] k sid']|]|] eqn:Ht; try by intros [= <- _].
    destruct (sse_onclose_lookup k t st) as (st2 & -> & Emt & Ems & Ess & Eh & En & Hg).
    simpl. intros [= <- _]. destruct Hwf as [Hh Hm Hs].
    split.
    + intros i o. rewrite Eh, En. apply Hh.
    + intros k' sid t'. rewrite Emt, Eh. apply Hm.
    + intros k' sid t'. rewrite Hg, Eh. case_decide; [done|]. apply Hs.
Qed.

Lemma exec_cons (ev : Event Body) evs st st' out :
  exec isInitializeRequest (ev :: evs) st = Ok (st', out) →
  ∃ st1 out1 out2,
    fire isInitializeRequest ev st = Ok (st1, out1) ∧
    exec isInitializeRequest evs st1 = Ok (st', out2) ∧
    out = (out1 ++ out2)%list.
Proof.
  simpl. destruct (fire isInitializeRequest ev st) as [[st1 out1]|]; [|done]. simpl.
  destruct (exec isInitializeRequest evs st1) as [[st2 out2]|] eqn:He; [|done]. simpl.
  intros [= <- <-]. by exists st1, out1, out2.
Qed.

Lemma exec_wf (evs : list (Event Body)) st st' out :
  wf st → exec isInitializeRequest evs st = Ok (st', out) → wf st'.
Proof.
  revert st out. induction evs as [|ev evs IH]; intros st out Hwf.
  - by intros [= <- _].
  - intros (st1 & out1 & out2 & Hfire & Hexec & _)%exec_cons.
    eapply IH; [|done]. by eapply fire_wf.
Qed.

Lemma reachable_wf st : reachable isInitializeRequest st → wf st.
Proof. intros (evs & out & Hexec). eapply exec_wf; [apply wf_init|done]. Qed.

(** ** Admission on the streamable POST route *)

Lemma plain_reachable_reachable st :
  plain_reachable isInitializeRequest st → reachable isInitializeRequest st.
Proof. intros (evs & out & _ & Hexec). by exists evs, out. Qed.

(** C1, as the code has it.  On a POST to the streamable route of a tenant
    whose key is plain, in a state reached through plain keys, a session (a
    new transport and a new handler, connected to each other) is created if
    and only if the request names no session and its body is an initialize
    message.  In that case the handler forwards the request once, to the
    new transport; it stores the new handler in [mcpServers] under the key
    "pending" of the tenant, where it takes the place of whatever was
    there, and changes no other handler entry and no session lookup: the
    request itself registers no session.  The session is registered by the
    completion callback: if the transport fires it, with a plain, non-empty
    identifier not yet registered for the tenant, that identifier then
    resolves to the new transport and every other lookup is as it was
    before the request. *)
Theorem C1_admission_step (req : Request Body) (st : State) (k : string) :
  plain_reachable isInitializeRequest st →
  truthy (params_apiKey req) = Some k →
  plain k = true →
  (session_created st (handleMcpPost isInitializeRequest req st) ↔
     admissible isInitializeRequest req) ∧
  (admissible isInitializeRequest req →
   ∃ st',
     handleMcpPost isInitializeRequest req st =
       Ok (st', [ConnectTransport (S (next st)) Streamable (next st);
                 HandleRequest (next st) req true]) ∧
     heap st !! next st = None ∧ heap st !! S (next st) = None ∧
     heap st' !! next st = Some (OTransport (mkTransport Streamable k None)) ∧
     heap st' !! S (next st) = Some (OServer k) ∧
     (∀ k' sid' kind, lookup st' k' sid' kind = lookup st k' sid' kind) ∧
     (∀ k' sid', get2 (mcpServers st') k' sid' =
        if decide (k' = k ∧ sid' = "pending") then Some (S (next st))
        else get2 (mcpServers st) k' sid') ∧
     sseServers st' = sseServers st ∧
     ∀ sid, sid ≠ EmptyString → plain sid = true →
       lookup st k sid Streamable = None →
       ∃ st'',
         fire isInitializeRequest (EvSessionInitialized (next st) sid) st' = Ok (st'', []) ∧
         ∀ k' sid' kind, lookup st'' k' sid' kind =
           if decide (k' = k ∧ sid' = sid ∧ kind = Streamable) then Some (next st)
           else lookup st k' sid' kind).
Proof.
  intros Hwf%plain_reachable_reachable%reachable_wf Hk _.
  assert (heap st !! next st = None ∧ heap st !! S (next st) = None) as [Hn Hn'].
  { split.
    - destruct (heap st !! next st) eqn:E; [|done]. apply (wf_heap _ Hwf) in E. lia.
    - destruct (heap st !! S (next st)) eqn:E; [|done]. apply (wf_heap _ Hwf) in E. lia. }
  split; [split|].
  - intros (st' & out & s & kind & t & o & a & Hrun & Hin & _).
    destruct (handleMcpPost_cases req st) as [(a' & Ha & Hnc)|(k' & _ & Hs & Hi)];
      [|by split].
    rewrite Ha in Hrun. injection Hrun as <- <-.
    apply list_elem_of_singleton in Hin. by destruct (Hnc s kind t).
  - intros [Hs Hi]. destruct (handleMcpPost_admit req st k Hk Hs Hi)
      as (st' & Hrun & _ & _ & _ & Hh & _).
    eexists st', _, (S (next st)), Streamable, (next st),
      (mkTransport Streamable k None), k.
    split; [exact Hrun|]. split; [apply list_elem_of_here|].
    rewrite Hh. split; [done|]. split.
    { rewrite lookup_insert_ne by lia. by rewrite lookup_insert_eq. }
    split; [done|]. by rewrite lookup_insert_eq.
  - intros [Hs Hi]. destruct (handleMcpPost_admit req st k Hk Hs Hi)
      as (st' & Hrun & Emt & Est & Ess & Hh & _ & Hg).
    exists st'. split; [exact Hrun|]. split; [done|]. split; [done|]. split.
    { rewrite Hh. rewrite lookup_insert_ne by lia. by rewrite lookup_insert_eq. }
    split. { rewrite Hh. by rewrite lookup_insert_eq. }
    split. { intros k' sid' []; simpl; by rewrite ?Emt, ?Est. }
    split; [exact Hg|]. split; [exact Ess|].
    intros sid Hne _ Hfresh. simpl. rewrite Hh.
    rewrite lookup_insert_ne by lia. rewrite lookup_insert_eq.
    rewrite decide_False by done.
    destruct (onsessioninitialized_lookup k (next st) sid
      (with_heap (<[next st := OTransport (mkTransport Streamable k (Some sid))]>
         (<[S (next st) := OServer k]>
            (<[next st := OTransport (mkTransport Streamable k None)]> (heap st)))) st'))
      as (st'' & -> & Est'' & _ & _ & _ & Hg').
    exists st''. split; [done|].
    intros k' sid' []; simpl.
    + rewrite Hg'. simpl. rewrite Emt.
      destruct (decide (k' = k ∧ sid' = sid)) as [[-> ->]|Hd].
      * by rewrite decide_True.
      * rewrite decide_False; [done|]. intros (? & ? & _). by apply Hd.
    + rewrite Est''. simpl. rewrite Est.
      rewrite decide_False; [done|]. by intros (_ & _ & ?).
Qed.


(** ** Removal on close *)

Lemma onclose_absent apiKey t sid st :
  truthy (sessionId_of st t) = Some sid →
  get2 (mcpTransports st) apiKey sid = None →
  get2 (mcpServers st) apiKey sid = None →
  onclose apiKey t st = Ok st.
Proof.
  unfold onclose. intros -> Ht Hs.
  destruct (mcpTransports st !! apiKey) as [sub|] eqn:Hk; [|done].
  rewrite delete2_absent by (by rewrite ?Hk). simpl.
  destruct (mcpServers st !! apiKey) as [sub'|] eqn:Hk'.
  - rewrite delete2_absent by (by rewrite ?Hk'). by destruct st.
  - by destruct st.
Qed.

Lemma sse_onclose_absent apiKey t st :
  get2 (sseTransports st) apiKey (prop_key (sessionId_of st t)) = None →
  sse_onclose apiKey t st = Ok st.
Proof.
  unfold sse_onclose. intros Ht.
  destruct (sseTransports st !! apiKey) as [sub|] eqn:Hk; [|done].
  rewrite delete2_absent by (by rewrite ?Hk). by destruct st.
Qed.

(** C3.  In a reachable state, let [t] be the transport registered under
    (tenant [k], identifier [sid], [kind]).  Firing the close signal of [t]
    succeeds; afterwards the lookup of (k, sid, kind) is absent, every other
    lookup of either kind is unchanged, the handler maps are unchanged
    except possibly at (k, sid), and firing the signal again succeeds and
    returns the very same state. *)
Theorem C3_close_removes (st : State) (k sid : string) (kind : Kind) (t : nat) :
  reachable isInitializeRequest st →
  lookup st k sid kind = Some t →
  ∃ st',
    fire isInitializeRequest
      (match kind with Streamable => EvMcpClose t | Sse => EvSseClose t end) st
      = Ok (st', []) ∧
    lookup st' k sid kind = None ∧
    (∀ k' sid' kind', (k', sid', kind') ≠ (k, sid, kind) →
       lookup st' k' sid' kind' = lookup st k' sid' kind') ∧
    (∀ k' sid', (k', sid') ≠ (k, sid) →
       get2 (mcpServers st') k' sid' = get2 (mcpServers st) k' sid') ∧
    sseServers st' = sseServers st ∧
    fire isInitializeRequest
      (match kind with Streamable => EvMcpClose t | Sse => EvSseClose t end) st'
      = Ok (st', []).
Proof.
  intros Hwf%reachable_wf Hl. destruct kind; simpl in Hl; simpl.
  - destruct (wf_mcp _ Hwf _ _ _ Hl) as [Hne Hobj]. rewrite Hobj.
    assert (truthy (sessionId_of st t) = Some sid) as Hsid.
    { unfold sessionId_of. rewrite Hobj. simpl. by rewrite decide_False. }
    assert (is_Some (mcpTransports st !! k)) as Hsub.
    { unfold get2 in Hl. destruct (mcpTransports st !! k); [by eexists|done]. }
    destruct (onclose_lookup k t sid st Hsid Hsub)
      as (st' & Hrun & Est & Ess & Eh & En & _ & Hmt & Hms).
    exists st'. rewrite Hrun. simpl. split; [done|].
    split. { rewrite Hmt. by rewrite decide_True. }
    split. { intros k' sid' [] Hd; simpl.
      - rewrite Hmt. rewrite decide_False; [done|]. intros [-> ->]. by apply Hd.
      - by rewrite Est. }
    split. { intros k' sid' Hd. rewrite Hms.
      rewrite decide_False; [done|]. intros [-> ->]. by apply Hd. }
    split; [done|]. rewrite Eh, Hobj.
    rewrite (onclose_absent k t sid st'); [done| | |].
    + unfold sessionId_of. by rewrite Eh, Hobj; simpl; rewrite decide_False.
    + rewrite Hmt. by rewrite decide_True.
    + rewrite Hms. by rewrite decide_True.
  - pose proof (wf_sse _ Hwf _ _ _ Hl) as Hobj. rewrite Hobj.
    assert (prop_key (sessionId_of st t) = sid) as Hsid.
    { unfold sessionId_of. by rewrite Hobj. }
    destruct (sse_onclose_lookup k t st)
      as (st' & Hrun & Emt & Ems & Ess & Eh & En & Hst).
    rewrite Hsid in Hst.
    exists st'. rewrite Hrun. simpl. split; [done|].
    split. { rewrite Hst. by rewrite decide_True. }
    split. { intros k' sid' [] Hd; simpl.
      - by rewrite Emt.
      - rewrite Hst. rewrite decide_False; [done|]. intros [-> ->]. by apply Hd. }
    split. { intros. by rewrite Ems. }
    split; [done|]. rewrite Eh, Hobj.
    rewrite (sse_onclose_absent k t st'); [done|].
    unfold sessionId_of. rewrite Eh, Hobj. simpl.
    rewrite Hst. by rewrite decide_True.
Qed.

(** C10.  If the close signal of a streamable transport fires while the
    transport's [sessionId] is still unset, or while the tenant has no
    sub-map in the transport map, the close callback returns normally and
    the state, hence the transport map and the handler map, is unchanged. *)
Theorem C10_close_before_ready (apiKey : string) (t : nat) (st : State) :
  sessionId_of st t = None ∨ mcpTransports st !! apiKey = None →
  onclose apiKey t st = Ok st.
Proof.
  intros [Hs|Hk]; apply onclose_unset.
  - left. by rewrite Hs.
  - by right.
Qed.

(** ** Rejections *)


Lemma fire_no_key (ev : Event Body) (req : Request Body) st :
  http_request ev = Some req →
  truthy (params_apiKey req) = None →
  fire isInitializeRequest ev st =
    Ok (st, [Respond 400
               match ev with
               | EvPostMcp _ => missing_key_envelope
               | _ => Text "API key is required"
               end]).
Proof.
  destruct ev as [r|r|r|r uuid|r|t sid|t|t]; simpl; intros [= ->] Hk.
  - by apply handleMcpPost_no_key.
  - unfold handleMcpSession. by rewrite Hk.
  - unfold handleMcpSession. by rewrite Hk.
  - by apply handleSseGet_no_key.
  - unfold handleSseMessages. by rewrite Hk.
Qed.

(** C7.  Whenever a run answers with a rejection (status 400), the state it
    returns is the state it was given: no registry map is changed.  A
    request without a tenant key is answered with a rejection that is the
    same for every registry state. *)
Theorem C7_rejection_frame (ev : Event Body) :
  (∀ st st' out a,
     fire isInitializeRequest ev st = Ok (st', out) →
     a ∈ out → is_rejection a = true → st' = st) ∧
  (∀ req, http_request ev = Some req → truthy (params_apiKey req) = None →
     ∃ r, ∀ st, fire isInitializeRequest ev st = Ok (st, [Respond 400 r])).
Proof.
  split.
  - intros st st' out a Hrun Hin Hrej.
    destruct ev as [req|req|req|req uuid|req|t sid|t|t]; simpl in Hrun.
    + destruct (handleMcpPost_cases req st) as [(a' & Ha & _)|(k & Hk & Hs & Hi)].
      * rewrite Ha in Hrun. by injection Hrun as <- _.
      * destruct (handleMcpPost_admit req st k Hk Hs Hi) as (st2 & Hst2 & _).
        rewrite Hst2 in Hrun. injection Hrun as <- <-.
        apply list_elem_of_In in Hin. simpl in Hin.
        destruct Hin as [<-|[<-|[]]]; done.
    + destruct (handleMcpSession_cases req st) as (a' & Ha & _).
      rewrite Ha in Hrun. by injection Hrun as <- _.
    + destruct (handleMcpSession_cases req st) as (a' & Ha & _).
      rewrite Ha in Hrun. by injection Hrun as <- _.
    + destruct (truthy (params_apiKey req)) as [k|] eqn:Hk.
      * destruct (handleSseGet_open req uuid st k Hk) as (st2 & s & t & Hst2 & _).
        rewrite Hst2 in Hrun. injection Hrun as <- <-.
        apply list_elem_of_singleton in Hin. by subst a.
      * rewrite handleSseGet_no_key in Hrun by done. by injection Hrun as <- _.
    + destruct (handleSseMessages_cases req st) as (a' & Ha & _).
      rewrite Ha in Hrun. by injection Hrun as <- _.
    + destruct (heap st !! t) as [[[[] k [sid'|]]|]|];
        try (injection Hrun as <- <-; by apply elem_of_nil in Hin).
      destruct (decide (sid = EmptyString));
        [injection Hrun as <- <-; by apply elem_of_nil in Hin|].
      destruct (onsessioninitialized _ _ _ _); [|done].
      injection Hrun as <- <-. by apply elem_of_nil in Hin.
    + destruct (heap st !! t) as [[[[] k sid']|]|];
        try (injection Hrun as <- <-; by apply elem_of_nil in Hin).
      destruct (onclose _ _ _); [|done].
      injection Hrun as <- <-. by apply elem_of_nil in Hin.
    + destruct (heap st !! t) as [[[[] k sid']|]|];
        try (injection Hrun as <- <-; by apply elem_of_nil in Hin).
      destruct (sse_onclose _ _ _); [|done].
      injection Hrun as <- <-. by apply elem_of_nil in Hin.
  - intros req Hreq Hk. eexists. intros st. by apply (fire_no_key ev req).
Qed.

(** C9, as the code has it.  Every reply the streamable POST route sends
    itself is a rejection with status 400 carrying the structured envelope
    (version marker "2.0", an error object with a numeric code and a
    message, [id: null]); it is one of two envelopes, which differ in their
    message and carry the same code -32000.  Every reply any other route
    sends itself is a status-400 plain-text message. *)
Theorem C9_rejection_shapes (ev : Event Body) (st st' : State)
    (out : list (Action Body)) (status : nat) (r : Reply) :
  fire isInitializeRequest ev st = Ok (st', out) →
  Respond status r ∈ out →
  status = 400 ∧
  match ev with
  | EvPostMcp _ =>
      (r = missing_key_envelope ∨ r = no_session_envelope) ∧
      is_envelope r = true ∧ error_code r = Some (-32000)%Z
  | _ => ∃ msg, r = Text msg
  end.
Proof.
  intros Hrun Hin.
  destruct ev as [req|req|req|req uuid|req|t sid|t|t]; simpl in Hrun.
  - unfold handleMcpPost in Hrun.
    destruct (truthy (params_apiKey req)) as [k|].
    + destruct (truthy (header_mcp_session_id req)) as [sid|].
      * destruct (get2 _ _ _).
        -- injection Hrun as <- <-. by apply list_elem_of_singleton in Hin.
        -- simpl in Hrun. injection Hrun as <- <-.
           apply list_elem_of_singleton in Hin. injection Hin as -> ->.
           split; [done|]. split; [by right|done].
      * simpl in Hrun. destruct (isInitializeRequest (body req)).
        -- simpl in Hrun. destruct (set2 _ _ _ _); [|done]. simpl in Hrun.
           injection Hrun as <- <-. apply list_elem_of_In in Hin. simpl in Hin.
           destruct Hin as [?|[?|[]]]; done.
        -- injection Hrun as <- <-.
           apply list_elem_of_singleton in Hin. injection Hin as -> ->.
           split; [done|]. split; [by right|done].
    + injection Hrun as <- <-.
      apply list_elem_of_singleton in Hin. injection Hin as -> ->.
      split; [done|]. split; [by left|done].
  - unfold handleMcpSession in Hrun.
    destruct (truthy (params_apiKey req));
      [|injection Hrun as <- <-; apply list_elem_of_singleton in Hin;
        injection Hin as -> ->; by eauto].
    destruct (truthy (header_mcp_session_id req));
      [|injection Hrun as <- <-; apply list_elem_of_singleton in Hin;
        injection Hin as -> ->; by eauto].
    destruct (mcpTransports st !! _) as [sub|];
      [|injection Hrun as <- <-; apply list_elem_of_singleton in Hin;
        injection Hin as -> ->; by eauto].
    destruct (sub !! _); injection Hrun as <- <-;
      apply list_elem_of_singleton in Hin; [done|].
    injection Hin as -> ->; by eauto.
  - unfold handleMcpSession in Hrun.
    destruct (truthy (params_apiKey req));
      [|injection Hrun as <- <-; apply list_elem_of_singleton in Hin;
        injection Hin as -> ->; by eauto].
    destruct (truthy (header_mcp_session_id req));
      [|injection Hrun as <- <-; apply list_elem_of_singleton in Hin;
        injection Hin as -> ->; by eauto].
    destruct (mcpTransports st !! _) as [sub|];
      [|injection Hrun as <- <-; apply list_elem_of_singleton in Hin;
        injection Hin as -> ->; by eauto].
    destruct (sub !! _); injection Hrun as <- <-;
      apply list_elem_of_singleton in Hin; [done|].
    injection Hin as -> ->; by eauto.
  - destruct (truthy (params_apiKey req)) as [k|] eqn:Hk.
    + destruct (handleSseGet_open req uuid st k Hk) as (st2 & s & t & Hst2 & _).
      rewrite Hst2 in Hrun. injection Hrun as <- <-.
      by apply list_elem_of_singleton in Hin.
    + rewrite handleSseGet_no_key in Hrun by done. injection Hrun as <- <-.
      apply list_elem_of_singleton in Hin. injection Hin as -> ->. by eauto.
  - unfold handleSseMessages in Hrun.
    destruct (truthy (params_apiKey req));
      [|injection Hrun as <- <-; apply list_elem_of_singleton in Hin;
        injection Hin as -> ->; by eauto].
    destruct (get2 _ _ _); injection Hrun as <- <-;
      apply list_elem_of_singleton in Hin; [done|].
    injection Hin as -> ->; by eauto.
  - destruct (heap st !! t) as [[[[] k [sid'|]]|]|];
      try (injection Hrun as <- <-; by apply elem_of_nil in Hin).
    destruct (decide (sid = EmptyString));
      [injection Hrun as <- <-; by apply elem_of_nil in Hin|].
    destruct (onsessioninitialized _ _ _ _); [|done].
    injection Hrun as <- <-. by apply elem_of_nil in Hin.
  - destruct (heap st !! t) as [[[[] k sid']|]|];
      try (injection Hrun as <- <-; by apply elem_of_nil in Hin).
    destruct (onclose _ _ _); [|done].
    injection Hrun as <- <-. by apply elem_of_nil in Hin.
  - destruct (heap st !! t) as [[[[] k sid']|]|];
      try (injection Hrun as <- <-; by apply elem_of_nil in Hin).
    destruct (sse_onclose _ _ _); [|done].
    injection Hrun as <- <-. by apply elem_of_nil in Hin.
Qed.

(** ** Inserts *)

(** C8, as the code has it.  An insert into the registry is a plain
    assignment.  On an occupied slot it succeeds without any error and the
    slot then holds the new value: the transport a completion signal
    brings, the transport a stream-open request constructs, and the handler
    an admission stores under the placeholder key. *)
Theorem C8_insert_overwrites (req : Request Body) (st : State) (k sid : string)
    (t0 t : nat) :
  (lookup st k sid Streamable = Some t0 →
   ∃ st', onsessioninitialized k t sid st = Ok st' ∧
          lookup st' k sid Streamable = Some t) ∧
  (truthy (params_apiKey req) = Some k →
   lookup st k sid Sse = Some t0 →
   ∃ st' out t', handleSseGet req sid st = Ok (st', out) ∧
                 lookup st' k sid Sse = Some t' ∧ next st ≤ t') ∧
  (truthy (params_apiKey req) = Some k →
   admissible isInitializeRequest req →
   get2 (mcpServers st) k "pending" = Some t0 →
   ∃ st' out, handleMcpPost isInitializeRequest req st = Ok (st', out) ∧
              get2 (mcpServers st') k "pending" = Some (S (next st))).
Proof.
  split; [|split].
  - intros _. destruct (onsessioninitialized_lookup k t sid st) as (st' & Hrun & _ & _ & _ & _ & Hg).
    exists st'. split; [done|]. simpl. rewrite Hg. by rewrite decide_True.
  - intros Hk _. destruct (handleSseGet_open req sid st k Hk)
      as (st' & s & t' & Hrun & _ & _ & _ & _ & _ & Hrange & _ & Hg).
    eexists st', _, t'. split; [done|]. simpl. rewrite Hg.
    rewrite decide_True by done. split; [done|lia].
  - intros Hk [Hs Hi] _. destruct (handleMcpPost_admit req st k Hk Hs Hi)
      as (st' & Hrun & _ & _ & _ & _ & _ & Hg).
    eexists st', _. split; [done|]. rewrite Hg. by rewrite decide_True.
Qed.

(** ** Handlers and transports *)

Lemma fire_summary (ev : Event Body) st st' out :
  fire isInitializeRequest ev st = Ok (st', out) →
  (sseServers st' = sseServers st ∧ next st' = next st ∧
   ∀ s kind t, ConnectTransport s kind t ∉ out) ∨
  (sseServers st' = sseServers st ∧ next st' = S (S (next st)) ∧
   ∃ req, out = [ConnectTransport (S (next st)) Streamable (next st);
                 HandleRequest (next st) req true]) ∨
  (∃ k s t, out = [ConnectTransport s Sse t] ∧
     sseServers st' = <[k := s]> (sseServers st) ∧
     next st ≤ t < next st' ∧
     (sseServers st !! k = Some s ∨ sseServers st !! k = None ∧ s = next st)).
Proof.
  assert (∀ a : Action Body, (∀ s K t, a ≠ ConnectTransport s K t) →
          ∀ s K t, ConnectTransport s K t ∉ [a]) as Hsingle.
  { intros a Ha s K t Hin%list_elem_of_singleton. by destruct (Ha s K t). }
  destruct ev as [req|req|req|req uuid|req|t sid|t|t]; simpl; intros Hrun.
  - destruct (handleMcpPost_cases req st) as [(a & Ha & Hnc)|(k & Hk & Hs & Hi)].
    + rewrite Ha in Hrun. injection Hrun as <- <-. left. eauto.
    + destruct (handleMcpPost_admit req st k Hk Hs Hi)
        as (st2 & Hst2 & _ & _ & Ess & _ & En & _).
      rewrite Hst2 in Hrun. injection Hrun as <- <-. right. left. eauto.
  - destruct (handleMcpSession_cases req st) as (a & Ha & Hnc).
    rewrite Ha in Hrun. injection Hrun as <- <-. left. eauto.
  - destruct (handleMcpSession_cases req st) as (a & Ha & Hnc).
    rewrite Ha in Hrun. injection Hrun as <- <-. left. eauto.
  - destruct (truthy (params_apiKey req)) as [k|] eqn:Hk.
    + destruct (handleSseGet_open req uuid st k Hk)
        as (st2 & s & t & Hst2 & _ & _ & Ess & _ & _ & Hrange & Hcase & _).
      rewrite Hst2 in Hrun. injection Hrun as <- <-. right. right.
      by exists k, s, t.
    + rewrite handleSseGet_no_key in Hrun by done. injection Hrun as <- <-.
      left. repeat split. by apply Hsingle.
  - destruct (handleSseMessages_cases req st) as (a & Ha & Hnc).
    rewrite Ha in Hrun. injection Hrun as <- <-. left. eauto.
  - left. destruct (heap st !! t) as [[[[] k [sid'|]]|]|];
      try (injection Hrun as <- <-; repeat split; intros; apply not_elem_of_nil).
    destruct (decide (sid = EmptyString));
      [injection Hrun as <- <-; repeat split; intros; apply not_elem_of_nil|].
    destruct (onsessioninitialized_lookup k t sid
      (with_heap (<[t := OTransport (mkTransport Streamable k (Some sid))]> (heap st)) st))
      as (st2 & Hst2 & _ & Ess & _ & En & _).
    rewrite Hst2 in Hrun. injection Hrun as <- <-.
    repeat split; try done. intros; apply not_elem_of_nil.
  - left. destruct (heap st !! t) as [[[[] k sid']|]|];
      try (injection Hrun as <- <-; repeat split; intros; apply not_elem_of_nil).
    destruct (onclose_shrinks k t st) as (st2 & Hst2 & _ & Ess & _ & En & _).
    rewrite Hst2 in Hrun. injection Hrun as <- <-.
    repeat split; try done. intros; apply not_elem_of_nil.
  - left. destruct (heap st !! t) as [[[[] k sid']|]|];
      try (injection Hrun as <- <-; repeat split; intros; apply not_elem_of_nil).
    destruct (sse_onclose_lookup k t st) as (st2 & Hst2 & _ & _ & Ess & _ & En & _).
    rewrite Hst2 in Hrun. injection Hrun as <- <-.
    repeat split; try done. intros; apply not_elem_of_nil.
Qed.







End Properties.

(** * Further properties of the handlers and callbacks *)

Section Behaviour.

Context {Body : Type}.
Variable isInitializeRequest : Body → bool.

(** ** Round trips *)

(** X2.  A handshake makes the session usable (tenant key and identifier
    being plain): after an admitted POST and the completion signal of the
    new transport with identifier [sid], any request of the same tenant
    that carries [sid] in its header is handed to that transport, by the
    POST route (with the body) and by the GET/DELETE route (without); up to
    that hand-over the handler has changed nothing.  What the transport
    does with the request, such as firing its close callback on a DELETE,
    is a later event. *)
Theorem streamable_round_trip (req req' : Request Body) (st : State) (k sid : string) :
  truthy (params_apiKey req) = Some k →
  plain k = true →
  plain sid = true →
  admissible isInitializeRequest req →
  truthy (params_apiKey req') = Some k →
  truthy (header_mcp_session_id req') = Some sid →
  ∃ st' st'',
    handleMcpPost isInitializeRequest req st =
      Ok (st', [ConnectTransport (S (next st)) Streamable (next st);
                HandleRequest (next st) req true]) ∧
    fire isInitializeRequest (EvSessionInitialized (next st) sid) st' = Ok (st'', []) ∧
    handleMcpPost isInitializeRequest req' st'' =
      Ok (st'', [HandleRequest (next st) req' true]) ∧
    handleMcpSession req' st'' = Ok (st'', [HandleRequest (next st) req' false]).
Proof.
  intros Hk _ _ [Hs Hi] Hk' Hs'.
  destruct (truthy_Some _ _ Hs') as [_ Hne].
  destruct (handleMcpPost_admit isInitializeRequest req st k Hk Hs Hi)
    as (st' & Hrun & _ & _ & _ & Hh & _).
  exists st'. simpl. rewrite Hh.
  rewrite lookup_insert_ne by lia. rewrite lookup_insert_eq.
  rewrite decide_False by done.
  destruct (onsessioninitialized_lookup k (next st) sid
    (with_heap (<[next st := OTransport (mkTransport Streamable k (Some sid))]>
       (<[S (next st) := OServer k]>
          (<[next st := OTransport (mkTransport Streamable k None)]> (heap st)))) st'))
    as (st'' & -> & _ & _ & _ & _ & Hg).
  exists st''. split; [exact Hrun|]. split; [done|].
  assert (get2 (mcpTransports st'') k sid = Some (next st)) as Hreg.
  { rewrite Hg. by rewrite decide_True. }
  split.
  - by apply (handleMcpPost_forward isInitializeRequest req' st'' k sid).
  - by apply (handleMcpSession_forward req' st'' k sid).
Qed.

(** X3.  Opening a push stream makes it addressable (tenant key and
    identifier being plain): after a stream-open
    request of a tenant, whose transport got the identifier [uuid], a
    stream-message request of that tenant with [sessionId=uuid] is handed
    to that transport, and the registry is left as it is. *)
Theorem sse_round_trip (req req' : Request Body) (uuid : string) (st : State) (k : string) :
  truthy (params_apiKey req) = Some k →
  plain k = true →
  plain uuid = true →
  truthy (params_apiKey req') = Some k →
  query_sessionId req' = Some uuid →
  ∃ st' s t,
    handleSseGet req uuid st = Ok (st', [ConnectTransport s Sse t]) ∧
    handleSseMessages req' st' = Ok (st', [HandlePostMessage t req']).
Proof.
  intros Hk _ _ Hk' Hq.
  destruct (handleSseGet_open req uuid st k Hk)
    as (st' & s & t & Hrun & _ & _ & _ & _ & _ & _ & _ & Hg).
  exists st', s, t. split; [exact Hrun|].
  apply (handleSseMessages_forward req' st' k t Hk').
  rewrite Hq. simpl. rewrite Hg. by rewrite decide_True.
Qed.

(** ** After the close *)

Lemma close_gone (st : State) (k sid : string) (kind : Kind) (t : nat) :
  wf st →
  lookup st k sid kind = Some t →
  ∃ st',
    fire isInitializeRequest
      (match kind with Streamable => EvMcpClose t | Sse => EvSseClose t end) st
      = Ok (st', []) ∧
    lookup st' k sid kind = None.
Proof.
  intros Hwf Hl. destruct kind; simpl in Hl; simpl.
  - destruct (wf_mcp _ Hwf _ _ _ Hl) as [Hne Hobj]. rewrite Hobj.
    destruct (onclose_lookup k t sid st) as (st' & -> & _ & _ & _ & _ & _ & Hmt & _).
    + unfold sessionId_of. rewrite Hobj. simpl. by rewrite decide_False.
    + unfold get2 in Hl. destruct (mcpTransports st !! k); [by eexists|done].
    + exists st'. split; [done|]. rewrite Hmt. by rewrite decide_True.
  - pose proof (wf_sse _ Hwf _ _ _ Hl) as Hobj. rewrite Hobj.
    destruct (sse_onclose_lookup k t st) as (st' & -> & _ & _ & _ & _ & _ & Hst).
    exists st'. split; [done|]. rewrite Hst.
    unfold sessionId_of. rewrite Hobj. simpl. by rewrite decide_True.
Qed.

(** X4.  A closed session is dead.  In a reachable state, once the close
    signal of the transport registered under (tenant, identifier, kind) has
    fired, every request of that tenant that names the identifier is
    rejected with status 400: on the POST route (even with an initialize
    body) and the GET/DELETE route for the streamable kind, on the
    stream-message route for the push-stream kind.  The identifier cannot
    be used to open a new session. *)
Theorem closed_session_rejected (req : Request Body) (st : State) (k sid : string)
    (kind : Kind) (t : nat) :
  reachable isInitializeRequest st →
  lookup st k sid kind = Some t →
  truthy (params_apiKey req) = Some k →
  ∃ st',
    fire isInitializeRequest
      (match kind with Streamable => EvMcpClose t | Sse => EvSseClose t end) st
      = Ok (st', []) ∧
    match kind with
    | Streamable =>
        truthy (header_mcp_session_id req) = Some sid →
        handleMcpPost isInitializeRequest req st' =
          Ok (st', [Respond 400 no_session_envelope]) ∧
        handleMcpSession req st' =
          Ok (st', [Respond 400 (Text "Invalid or missing session ID")])
    | Sse =>
        query_sessionId req = Some sid →
        handleSseMessages req st' =
          Ok (st', [Respond 400 (Text "No transport found for sessionId")])
    end.
Proof.
  intros Hwf%reachable_wf Hl Hk.
  destruct (close_gone st k sid kind t Hwf Hl) as (st' & Hrun & Hgone).
  exists st'. split; [exact Hrun|]. destruct kind; simpl in Hgone.
  - intros Hs. split.
    + apply (handleMcpPost_reject isInitializeRequest req st' k Hk).
      * intros sid' Hs''. rewrite Hs in Hs''. by injection Hs'' as <-.
      * rewrite Hs. by intros [? _].
    + apply (handleMcpSession_reject req st' k Hk).
      intros sid' Hs''. rewrite Hs in Hs''. by injection Hs'' as <-.
  - intros Hq. apply (handleSseMessages_reject req st' k Hk). by rewrite Hq.
Qed.

(** ** What an event can change *)


Lemma onclose_effect apiKey t st :
  ∃ st', onclose apiKey t st = Ok st' ∧
    sseTransports st' = sseTransports st ∧ sseServers st' = sseServers st ∧
    ∀ k' sid',
      (get2 (mcpTransports st') k' sid' = get2 (mcpTransports st) k' sid' ∨ k' = apiKey) ∧
      (get2 (mcpServers st') k' sid' = get2 (mcpServers st) k' sid' ∨ k' = apiKey).
Proof.
  destruct (truthy (sessionId_of st t)) as [sid|] eqn:Hsid.
  - destruct (mcpTransports st !! apiKey) as [sub|] eqn:Hk.
    + destruct (onclose_lookup apiKey t sid st) as (st' & -> & ? & ? & _ & _ & _ & Hm & Hs);
        [done|by eexists|].
      exists st'. repeat split; try done.
      * rewrite Hm. case_decide as Hd; [right; by destruct Hd|by left].
      * rewrite Hs. case_decide as Hd; [right; by destruct Hd|by left].
    + rewrite onclose_unset by (by right). exists st. repeat split; by left.
  - rewrite onclose_unset by (by left). exists st. repeat split; by left.
Qed.

Lemma fire_lookup_effect (ev : Event Body) st st' out k sid kind :
  fire isInitializeRequest ev st = Ok (st', out) →
  lookup st' k sid kind = lookup st k sid kind ∨
  (event_tenant st ev = Some k ∧ event_kind ev = kind ∧
   (is_Some (lookup st' k sid kind) ∨
    (∃ t, ev = EvMcpClose t) ∨ (∃ t, ev = EvSseClose t))).
Proof.
  destruct ev as [req|req|req|req uuid|req|t sid0|t|t]; simpl; intros Hrun.
  - destruct (handleMcpPost_cases isInitializeRequest req st)
      as [(a & Ha & _)|(k0 & Hk & Hs & Hi)].
    + rewrite Ha in Hrun. injection Hrun as <- _. by left.
    + destruct (handleMcpPost_admit isInitializeRequest req st k0 Hk Hs Hi)
        as (st2 & Hst2 & Emt & Est & _).
      rewrite Hst2 in Hrun. injection Hrun as <- _. left.
      destruct kind; simpl; by rewrite ?Emt, ?Est.
  - destruct (handleMcpSession_cases req st) as (a & Ha & _).
    rewrite Ha in Hrun. injection Hrun as <- _. by left.
  - destruct (handleMcpSession_cases req st) as (a & Ha & _).
    rewrite Ha in Hrun. injection Hrun as <- _. by left.
  - destruct (truthy (params_apiKey req)) as [k0|] eqn:Hk.
    + destruct (handleSseGet_open req uuid st k0 Hk)
        as (st2 & s & t & Hst2 & Emt & _ & _ & _ & _ & _ & _ & Hg).
      rewrite Hst2 in Hrun. injection Hrun as <- _.
      destruct kind; simpl; [left; by rewrite Emt|].
      rewrite Hg. case_decide as Hd; [|by left].
      destruct Hd as [-> ->]. right. repeat split. left. by eexists.
    + rewrite handleSseGet_no_key in Hrun by done. injection Hrun as <- _. by left.
  - destruct (handleSseMessages_cases req st) as (a & Ha & _).
    rewrite Ha in Hrun. injection Hrun as <- _. by left.
  - destruct (heap st !! t) as [[[[] k0 [sid'|]]|]|] eqn:Ht;
      try (injection Hrun as <- _; by left).
    destruct (decide (sid0 = EmptyString)); [injection Hrun as <- _; by left|].
    destruct (onsessioninitialized_lookup k0 t sid0
      (with_heap (<[t := OTransport (mkTransport Streamable k0 (Some sid0))]> (heap st)) st))
      as (st2 & Hst2 & Est & _ & _ & _ & Hg).
    rewrite Hst2 in Hrun. injection Hrun as <- _.
    destruct kind; simpl; [|left; by rewrite Est].
    rewrite Hg. case_decide as Hd; [|by left].
    destruct Hd as [-> ->]. right. repeat split. left. by eexists.
  - destruct (heap st !! t) as [[[[] k0 sid']|]|] eqn:Ht;
      try (injection Hrun as <- _; by left).
    destruct (onclose_effect k0 t st) as (st2 & Hst2 & Est & _ & Hg).
    rewrite Hst2 in Hrun. injection Hrun as <- _.
    destruct kind; simpl; [|left; by rewrite Est].
    destruct (Hg k sid) as [[?| ->] _]; [by left|].
    right. repeat split. right. left. by eexists.
  - destruct (heap st !! t) as [[[[] k0 sid']|]|] eqn:Ht;
      try (injection Hrun as <- _; by left).
    destruct (sse_onclose_lookup k0 t st) as (st2 & Hst2 & Emt & _ & _ & _ & _ & Hg).
    rewrite Hst2 in Hrun. injection Hrun as <- _.
    destruct kind; simpl; [left; by rewrite Emt|].
    rewrite Hg. case_decide as Hd; [|by left].
    destruct Hd as [-> _]. right. repeat split. right. right. by eexists.
Qed.


(** X5.  Sessions end only through their close callback.  If a step with
    plain keys makes a registered session disappear from the lookup, the
    step is the close callback of that transport kind, run for that tenant:
    the code of the routes and of the completion callback deletes nothing.
    (A DELETE request ends a session through the close callback its
    transport fires while handling it, which is such a step.) *)
Theorem removed_only_by_close (ev : Event Body) (st st' : State)
    (out : list (Action Body)) (k sid : string) (kind : Kind) (t : nat) :
  plain_event ev = true →
  fire isInitializeRequest ev st = Ok (st', out) →
  lookup st k sid kind = Some t →
  lookup st' k sid kind = None →
  event_tenant st ev = Some k ∧
  match kind with
  | Streamable => ∃ t', ev = EvMcpClose t'
  | Sse => ∃ t', ev = EvSseClose t'
  end.
Proof.
  intros _ Hrun Hbefore Hafter.
  destruct (fire_lookup_effect ev st st' out k sid kind Hrun)
    as [Heq|(Hten & Hkind & Hcase)].
  { rewrite Hbefore, Hafter in Heq. done. }
  split; [done|]. rewrite Hafter in Hcase.
  destruct Hcase as [[? [=]]|[[t' ->]|[t' ->]]]; simpl in Hkind; subst kind; by eexists.
Qed.


(** ** The push-stream handler of a tenant *)

(** X7.  The push-stream handler of a tenant is permanent: once
    [sseServers] holds a handler for a tenant, it holds that same handler
    after any sequence of requests and callbacks. *)
Theorem sse_handler_stable (evs : list (Event Body)) (st st' : State)
    (out : list (Action Body)) (k : string) (s : nat) :
  sseServers st !! k = Some s →
  exec isInitializeRequest evs st = Ok (st', out) →
  sseServers st' !! k = Some s.
Proof.
  revert st out. induction evs as [|ev evs IH]; intros st out Hs.
  - by intros [= <- _].
  - intros (st1 & out1 & out2 & Hfire & Hexec & _)%exec_cons.
    eapply IH; [|exact Hexec].
    destruct (fire_summary isInitializeRequest ev st st1 out1 Hfire)
      as [(Ess & _)|[(Ess & _)|(k0 & s0 & t0 & _ & Ess & _ & Hcase)]];
      rewrite Ess; [done|done|].
    destruct (decide (k = k0)) as [->|Hne]; [|by rewrite lookup_insert_ne].
    rewrite lookup_insert_eq. destruct Hcase as [Hk0|[Hk0 _]]; congruence.
Qed.

(** ** One answer per request *)


(** ** Where a handshake leaves the handler *)


(** ** One transport, one registration *)

(** X11.  In a state reached through plain keys a transport is registered under at most one
    (tenant, identifier, kind): two lookups that return the same transport
    are the same lookup.  No session identifier and no tenant reaches the
    transport of another session. *)
Theorem lookup_injective (st : State) (k1 sid1 k2 sid2 : string) (kind1 kind2 : Kind)
    (t : nat) :
  plain_reachable isInitializeRequest st →
  lookup st k1 sid1 kind1 = Some t →
  lookup st k2 sid2 kind2 = Some t →
  k1 = k2 ∧ sid1 = sid2 ∧ kind1 = kind2.
Proof.
  intros (evs & out & _ & Hexec) H1 H2.
  assert (wf st) as Hwf by (eapply exec_wf; [apply wf_init|exact Hexec]).
  assert (∀ k sid kind, lookup st k sid kind = Some t →
          heap st !! t = Some (OTransport (mkTransport kind k (Some sid)))) as Hobj.
  { intros k sid [] Hl; simpl in Hl.
    - by destruct (wf_mcp _ Hwf _ _ _ Hl).
    - by apply (wf_sse _ Hwf). }
  apply Hobj in H1. apply Hobj in H2. rewrite H1 in H2. by injection H2 as -> -> ->.
Qed.

(** ** Handlers carry the tenant's key *)





End Behaviour.


(** * Concrete runs *)

Lemma acme_reachable : reachable is_init acme_state.
Proof.
  exists acme_events, (out_of (exec is_init acme_events init_state)).
  vm_compute. reflexivity.
Qed.

Lemma acme_plain_reachable : plain_reachable is_init acme_state.
Proof.
  exists acme_events, (out_of (exec is_init acme_events init_state)).
  split; vm_compute; reflexivity.
Qed.

Lemma C1_counterexample :
  let st1 := st_of (fire is_init (EvPostMcp (init_req "acme")) init_state) in
  let r := handleMcpPost is_init (init_req "acme") st1 in
  admissible is_init (init_req "acme") ∧
  out_of r = [ConnectTransport 3 Streamable 2; HandleRequest 2 (init_req "acme") true] ∧
  mcpTransports (st_of r) = mcpTransports st1 ∧
  entry_count (st_of r) = entry_count st1.
Proof. vm_compute. repeat split. Qed.

Lemma C1_admission_step_witness :
  truthy (params_apiKey (init_req "acme")) = Some "acme" ∧
  plain "acme" = true ∧
  session_created acme_state (handleMcpPost is_init (init_req "acme") acme_state).
Proof.
  split; [reflexivity|]. split; [vm_compute; reflexivity|].
  destruct (C1_admission_step is_init (init_req "acme") acme_state "acme"
              acme_plain_reachable eq_refl ltac:(vm_compute; reflexivity)) as [Hiff _].
  apply Hiff. split; reflexivity.
Defined.


Lemma C3_close_removes_witness :
  lookup acme_state "acme" "s1" Streamable = Some 0 ∧
  ∃ st', fire is_init (EvMcpClose 0) acme_state = Ok (st', []) ∧
         lookup st' "acme" "s1" Streamable = None ∧
         fire is_init (EvMcpClose 0) st' = Ok (st', []).
Proof.
  assert (lookup acme_state "acme" "s1" Streamable = Some 0) as Hl
    by (vm_compute; reflexivity).
  split; [exact Hl|].
  destruct (C3_close_removes is_init acme_state "acme" "s1" Streamable 0
              acme_reachable Hl) as (st' & Hrun & Hgone & _ & _ & _ & Hagain).
  exists st'. split; [exact Hrun|]. split; [exact Hgone|exact Hagain].
Defined.

(** C4.  Tenant "acme" completes two handshakes in a row.  After the first
    one the tenant has no handler entry at all (the completion callback
    replaced the handler sub-map by an empty one); after the second one the
    transport is registered under its identifier "s2", its handler is still
    registered under "pending" and not under "s2", and closing the
    transport leaves the handler there. *)
Theorem C4_handler_stays_pending :
  let st1 := st_of (exec is_init (take 2 two_handshakes) init_state) in
  let st2 := st_of (exec is_init two_handshakes init_state) in
  let st3 := st_of (fire is_init (EvMcpClose 2) st2) in
  mcpServers st1 !! "acme" = Some ∅ ∧
  lookup st2 "acme" "s2" Streamable = Some 2 ∧
  get2 (mcpServers st2) "acme" "s2" = None ∧
  get2 (mcpServers st2) "acme" "pending" = Some 3 ∧
  lookup st3 "acme" "s2" Streamable = None ∧
  get2 (mcpServers st3) "acme" "pending" = Some 3.
Proof. vm_compute. repeat split. Qed.




Lemma C7_rejection_frame_witness :
  st_of (fire is_init (EvPostMcp (session_req "acme" (Some "zzz") true)) acme_state) =
    acme_state.
Proof.
  apply (proj1 (C7_rejection_frame is_init
                  (EvPostMcp (session_req "acme" (Some "zzz") true)))
           acme_state _ [Respond 400 no_session_envelope]
           (Respond 400 no_session_envelope)).
  - vm_compute. reflexivity.
  - apply list_elem_of_here.
  - reflexivity.
Defined.

Lemma C8_counterexample :
  let st1 := st_of (fire is_init (EvPostMcp (init_req "acme")) init_state) in
  get2 (mcpServers st1) "acme" "pending" = Some 1 ∧
  ∃ st2 out, fire is_init (EvPostMcp (init_req "acme")) st1 = Ok (st2, out) ∧
             get2 (mcpServers st2) "acme" "pending" = Some 3.
Proof. split; [vm_compute; reflexivity|]. eexists _, _. vm_compute. split; reflexivity. Qed.

Lemma C8_insert_overwrites_witness :
  lookup acme_state "acme" "s1" Streamable = Some 0 ∧
  ∃ st', onsessioninitialized "acme" 7 "s1" acme_state = Ok st' ∧
         lookup st' "acme" "s1" Streamable = Some 7.
Proof.
  assert (lookup acme_state "acme" "s1" Streamable = Some 0) as Hl
    by (vm_compute; reflexivity).
  split; [exact Hl|].
  exact (proj1 (C8_insert_overwrites is_init (init_req "acme") acme_state
                  "acme" "s1" 0 7) Hl).
Defined.

Lemma C9_counterexample :
  fire is_init (EvGetMcp keyless_req) init_state =
    Ok (init_state, [Respond 400 (Text "API key is required")]) ∧
  is_envelope (Text "API key is required") = false ∧
  error_code missing_key_envelope = error_code no_session_envelope.
Proof. repeat split. Qed.

Lemma C9_rejection_shapes_witness :
  400 = 400 ∧
  (no_session_envelope = missing_key_envelope ∨ no_session_envelope = no_session_envelope) ∧
  is_envelope no_session_envelope = true ∧
  error_code no_session_envelope = Some (-32000)%Z.
Proof.
  apply (C9_rejection_shapes is_init (EvPostMcp (session_req "acme" (Some "zzz") true))
           acme_state acme_state [Respond 400 no_session_envelope]).
  - vm_compute. reflexivity.
  - apply list_elem_of_here.
Defined.

Lemma C10_close_before_ready_witness :
  let st := st_of (fire is_init (EvPostMcp (init_req "acme")) init_state) in
  sessionId_of st 0 = None ∧ onclose "acme" 0 st = Ok st.
Proof.
  split; [vm_compute; reflexivity|].
  apply C10_close_before_ready. left. vm_compute. reflexivity.
Defined.

(** ** Concrete runs of the further properties *)

Lemma streamable_round_trip_witness :
  ∃ st' st'',
    handleMcpPost is_init (init_req "acme") acme_state =
      Ok (st', [ConnectTransport (S (next acme_state)) Streamable (next acme_state);
                HandleRequest (next acme_state) (init_req "acme") true]) ∧
    fire is_init (EvSessionInitialized (next acme_state) "s9") st' = Ok (st'', []) ∧
    handleMcpPost is_init (session_req "acme" (Some "s9") false) st'' =
      Ok (st'', [HandleRequest (next acme_state) (session_req "acme" (Some "s9") false) true]) ∧
    handleMcpSession (session_req "acme" (Some "s9") false) st'' =
      Ok (st'', [HandleRequest (next acme_state) (session_req "acme" (Some "s9") false) false]).
Proof.
  apply (streamable_round_trip is_init (init_req "acme")
           (session_req "acme" (Some "s9") false) acme_state "acme" "s9").
  - reflexivity.
  - vm_compute. reflexivity.
  - vm_compute. reflexivity.
  - split; reflexivity.
  - reflexivity.
  - reflexivity.
Defined.

Lemma sse_round_trip_witness :
  ∃ st' s t,
    handleSseGet (session_req "acme" None false) "u7" acme_state =
      Ok (st', [ConnectTransport s Sse t]) ∧
    handleSseMessages (session_req "acme" (Some "u7") false) st' =
      Ok (st', [HandlePostMessage t (session_req "acme" (Some "u7") false)]).
Proof.
  apply (sse_round_trip (session_req "acme" None false)
           (session_req "acme" (Some "u7") false) "u7" acme_state "acme");
    vm_compute; reflexivity.
Defined.

Lemma closed_session_rejected_witness :
  ∃ st',
    fire is_init (EvMcpClose 0) acme_state = Ok (st', []) ∧
    handleMcpPost is_init (session_req "acme" (Some "s1") true) st' =
      Ok (st', [Respond 400 no_session_envelope]).
Proof.
  assert (lookup acme_state "acme" "s1" Streamable = Some 0) as Hl
    by (vm_compute; reflexivity).
  destruct (closed_session_rejected is_init (session_req "acme" (Some "s1") true)
              acme_state "acme" "s1" Streamable 0 acme_reachable Hl eq_refl)
    as (st' & Hrun & Hrej).
  exists st'. split; [exact Hrun|]. apply Hrej. reflexivity.
Defined.

Lemma removed_only_by_close_witness :
  lookup acme_state "acme" "u1" Sse = Some 3 ∧
  lookup (st_of (fire is_init (EvSseClose 3) acme_state)) "acme" "u1" Sse = None ∧
  event_tenant acme_state (EvSseClose (Body := bool) 3) = Some "acme" ∧
  ∃ t', EvSseClose (Body := bool) 3 = EvSseClose t'.
Proof.
  assert (lookup acme_state "acme" "u1" Sse = Some 3) as Hbefore
    by (vm_compute; reflexivity).
  assert (lookup (st_of (fire is_init (EvSseClose 3) acme_state)) "acme" "u1" Sse = None)
    as Hafter by (vm_compute; reflexivity).
  split; [exact Hbefore|]. split; [exact Hafter|].
  apply (removed_only_by_close is_init (EvSseClose 3) acme_state
           (st_of (fire is_init (EvSseClose 3) acme_state))
           (out_of (fire is_init (EvSseClose 3) acme_state))
           "acme" "u1" Sse 3);
    [reflexivity | vm_compute; reflexivity | exact Hbefore | exact Hafter].
Defined.


Lemma sse_handler_stable_witness :
  sseServers acme_state !! "acme" = Some 2 ∧
  sseServers (st_of (exec is_init (two_streams ++ two_handshakes) acme_state)) !! "acme"
    = Some 2.
Proof.
  assert (sseServers acme_state !! "acme" = Some 2) as Hs by (vm_compute; reflexivity).
  split; [exact Hs|].
  apply (sse_handler_stable is_init (two_streams ++ two_handshakes) acme_state _
           (out_of (exec is_init (two_streams ++ two_handshakes) acme_state))
           "acme" 2 Hs).
  vm_compute. reflexivity.
Defined.



Lemma lookup_injective_witness :
  lookup acme_state "acme" "s1" Streamable = Some 0 ∧
  ("acme" = "acme" ∧ "s1" = "s1" ∧ Streamable = Streamable).
Proof.
  assert (lookup acme_state "acme" "s1" Streamable = Some 0) as Hl
    by (vm_compute; reflexivity).
  split; [exact Hl|].
  exact (lookup_injective is_init acme_state "acme" "s1" "acme" "s1"
           Streamable Streamable 0 acme_plain_reachable Hl Hl).
Defined.

